(** * SentinelProxy backend: a shallow embedding of [backend/server.py]

    The module has three pieces of logic: the configuration loader
    [load_server_config], the AI adapter [handleAIRequest] with the request
    handler [handlePacket], and the module top level that wires them
    together.  Each is embedded below as an executable definition over an
    exception-and-state monad, followed by the properties established
    about it. *)

From Stdlib Require Import ZArith Ascii String List Bool Lia DecimalString.
From stdpp Require Import base option strings gmap.

Local Open Scope string_scope.
Local Open Scope list_scope.

(** ** Exceptions and outcomes *)

Module Py.

(** The exception classes the module can meet.  [ProviderError] stands for
    whatever the generative-AI client library raises when a call fails. *)
Inductive exn_class :=
| AttributeError | TypeError | ValueError | KeyError | NameError
| OSError | FileNotFoundError | PermissionError | IsADirectoryError
| UnicodeDecodeError | ModuleNotFoundError | ProviderError
| KeyboardInterrupt | SystemExit.

Record exn := Exn { exn_cls : exn_class; exn_msg : string }.

(** [isinstance(e, Exception)]: everything but the two classes that derive
    from [BaseException] directly. *)
Definition is_Exception (e : exn) : bool :=
  match exn_cls e with
  | KeyboardInterrupt | SystemExit => false
  | _ => true
  end.

Inductive outcome (A : Type) :=
| Returns (a : A)
| Raises (e : exn).
Arguments Returns {A} a.
Arguments Raises {A} e.

(** Computations over a mutable state [S]; the state survives a raise, as
    the heap of the interpreter does. *)
Definition M (S A : Type) : Type := S -> outcome A * S.

Definition ret {S A} (a : A) : M S A := fun s => (Returns a, s).
Definition raise {S A} (e : exn) : M S A := fun s => (Raises e, s).
Definition bind {S A B} (m : M S A) (k : A -> M S B) : M S B :=
  fun s => match m s with
           | (Returns a, s') => k a s'
           | (Raises e, s') => (Raises e, s')
           end.
Definition get {S} : M S S := fun s => (Returns s, s).
Definition modify {S} (f : S -> S) : M S unit := fun s => (Returns tt, f s).
Definition lift {S A} (o : outcome A) : M S A := fun s => (o, s).

(** [try: body except Exception as e: handler(e)] *)
Definition try_except {S A} (body : M S A) (handler : exn -> M S A) : M S A :=
  fun s => match body s with
           | (Returns a, s') => (Returns a, s')
           | (Raises e, s') =>
               if is_Exception e then handler e s' else (Raises e, s')
           end.

End Py.
Export Py.

Declare Scope py_scope.
Delimit Scope py_scope with py.
Notation "x <- m ;; k" := (bind m (fun x => k))
  (at level 20, m at level 99, k at level 200, only parsing) : py_scope.
Notation "m ;;; k" := (bind m (fun _ => k))
  (at level 100, k at level 200, right associativity, only parsing) : py_scope.
Local Open Scope py_scope.

(** ** Python strings

    A character is a code point; [ascii] covers the code points below 256. *)

Module PyStr.

(** [str.isspace] on one character, for code points below 256:
    TAB, LF, VT, FF, CR, FS, GS, RS, US, space, NEL and NBSP. *)
Definition isspace (c : ascii) : bool :=
  let n := nat_of_ascii c in
  ((9 <=? n)%nat && (n <=? 13)%nat) || ((28 <=? n)%nat && (n <=? 32)%nat)
  || (n =? 133)%nat || (n =? 160)%nat.

Fixpoint lstrip (s : string) : string :=
  match s with
  | EmptyString => EmptyString
  | String c s' => if isspace c then lstrip s' else s
  end.

Fixpoint rstrip (s : string) : string :=
  match s with
  | EmptyString => EmptyString
  | String c s' =>
      match rstrip s' with
      | EmptyString => if isspace c then EmptyString else String c EmptyString
      | r => String c r
      end
  end.

(** [s.strip()] *)
Definition strip (s : string) : string := rstrip (lstrip s).

Fixpoint drop (n : nat) (s : string) : string :=
  match n, s with
  | O, _ => s
  | S _, EmptyString => EmptyString
  | S n', String _ s' => drop n' s'
  end.

(** [sub in s] *)
Fixpoint str_in (sub s : string) : bool :=
  String.prefix sub s ||
  match s with
  | EmptyString => false
  | String _ s' => str_in sub s'
  end.

(** The text before and after the first occurrence of [sep] in [s]. *)
Fixpoint find_sep (sep s : string) : option (string * string) :=
  if String.prefix sep s then Some (EmptyString, drop (String.length sep) s)
  else match s with
       | EmptyString => None
       | String c s' =>
           match find_sep sep s' with
           | Some (a, b) => Some (String c a, b)
           | None => None
           end
       end.

(** [s.split(sep, 1)] for a non-empty separator. *)
Definition split_1 (sep s : string) : list string :=
  match find_sep sep s with
  | Some (a, b) => [a; b]
  | None => [s]
  end.

(** The line terminator. *)
Definition LF : string := String (ascii_of_nat 10) EmptyString.

(** [str(n)] for an [int]. *)
Definition str_of_int (z : Z) : string := NilZero.string_of_int (Z.to_int z).

End PyStr.
Export PyStr.

(** Tuple unpacking [a, b = xs]. *)
Definition unpack2 {S} (xs : list string) : M S (string * string) :=
  match xs with
  | [a; b] => ret (a, b)
  | [] | [_] =>
      raise (Exn ValueError
        ("not enough values to unpack (expected 2, got "
           +:+ str_of_int (Z.of_nat (length xs)) +:+ ")"))
  | _ => raise (Exn ValueError "too many values to unpack (expected 2)")
  end.

(** ** The configuration loader *)

Module Config.

(** What [open] and the iteration over the file object deliver for one
    path: [open] may raise; otherwise the lines come one by one, each with
    its line terminator, and the iteration ends at end of file or with a
    raised error (a failed read, bytes that do not decode). *)
Record file := File {
  open_error : option exn;
  file_lines : list string;
  read_error : option exn
}.

Inductive level := INFO | WARNING | ERROR.

(** One call of a [logger] method: the level, the format string and the
    arguments as they are handed over (formatting is left to the logging
    handlers). *)
Record log_record := Log {
  log_level : level;
  log_format : string;
  log_args : list string
}.

(** The part of the process state the loader touches: the directory
    entries visible from the working directory, and the logger calls made
    so far. *)
Record world := World {
  fs : gmap string file;
  log : list log_record
}.

(** The state while [load_server_config] runs: its local dict [config] and
    the world. *)
Record frame := Frame {
  config : gmap string string;
  globals : world
}.

Definition logger_call (lv : level) (fmt : string) (args : list string)
  : M frame unit :=
  modify (fun fr =>
    Frame (config fr)
          (World (fs (globals fr)) (log (globals fr) ++ [Log lv fmt args]))).

(** [os.path.exists(path)] *)
Definition os_path_exists (path : string) : M frame bool :=
  fr <- get ;; ret (bool_decide (is_Some (fs (globals fr) !! path))).

(** [config[key] = value] *)
Definition setitem (key value : string) : M frame unit :=
  modify (fun fr => Frame (<[key := value]> (config fr)) (globals fr)).

(** [config[key]] *)
Definition getitem (key : string) : M frame string :=
  fr <- get ;;
  match config fr !! key with
  | Some v => ret v
  | None => raise (Exn KeyError key)
  end.

(** [open(path, "r")]: the file object, reduced to what iterating over it
    will deliver. *)
Definition open_r (path : string) : M frame file :=
  fr <- get ;;
  match fs (globals fr) !! path with
  | None =>
      raise (Exn FileNotFoundError ("No such file or directory: " +:+ path))
  | Some f =>
      match open_error f with
      | Some e => raise e
      | None => ret f
      end
  end.

(** [for line in f: body(line)] *)
Fixpoint for_lines (lines : list string) (err : option exn)
    (body : string -> M frame unit) : M frame unit :=
  match lines with
  | [] => match err with
          | Some e => raise e
          | None => ret tt
          end
  | line :: rest => body line ;;; for_lines rest err body
  end.

Definition default_config : gmap string string :=
  <["backend_ip" := "192.168.1.1"]>
    (<["port" := "3107"]> (<["X-Auth-Token" := "default"]> ∅)).

Definition config_path : string := "backendcfg.txt".

(** The body of the [for] loop, lines 32 to 39. *)
Definition process_line (line : string) : M frame unit :=
  if str_in ":" line then
    kv <- unpack2 (split_1 ":" (strip line)) ;;
    let '(key, value) := kv in
    if String.eqb key "backend_ip" then setitem "backend_ip" (strip value)
    else if String.eqb key "port" then setitem "port" (strip value)
    else if String.eqb key "X-Auth-Token" then
      setitem "X-Auth-Token" (strip value)
    else ret tt
  else ret tt.

(** The [try] block, lines 27 to 40.  [Some c] is the early [return c] of
    line 29, [None] is falling out of the block. *)
Definition try_block : M frame (option (gmap string string)) :=
  ex <- os_path_exists config_path ;;
  if negb ex then
    logger_call WARNING "Config file not found at %s, using default"
                [config_path] ;;;
    fr <- get ;;
    ret (Some (config fr))
  else
    f <- open_r config_path ;;
    for_lines (file_lines f) (read_error f) process_line ;;;
    ip <- getitem "backend_ip" ;;
    port <- getitem "port" ;;
    tok <- getitem "X-Auth-Token" ;;
    logger_call INFO
      "Loaded config in file: IP = %s, port = %d, X-Auth-Token = %s"
      [ip; port; tok] ;;;
    ret None.

(** The whole function body, run in a frame whose [config] is the fresh
    dict of line 24. *)
Definition load_server_config_body : M frame (gmap string string) :=
  r <- try_except try_block
         (fun e =>
            logger_call ERROR
              "Error loading config file: %s, using default configuration"
              [exn_msg e] ;;;
            ret None) ;;
  match r with
  | Some c => ret c
  | None => fr <- get ;; ret (config fr)
  end.

(** [load_server_config()] as a transition of the world. *)
Definition load_server_config : M world (gmap string string) :=
  fun w =>
    let '(r, fr) := load_server_config_body (Frame default_config w) in
    (r, globals fr).

(** *** Vocabulary for stating what the loader does *)

(** The keys the loader assigns. *)
Definition recognized (key : string) : bool :=
  bool_decide (key ∈ ["backend_ip"; "port"; "X-Auth-Token"]).

(** The dict after the loop body has run on one line. *)
Definition after_line (c : gmap string string) (line : string)
  : gmap string string :=
  config (snd (process_line line (Frame c (World ∅ [])))).

Definition has_keys (c : gmap string string) : Prop :=
  is_Some (c !! "backend_ip") /\ is_Some (c !! "port")
  /\ is_Some (c !! "X-Auth-Token").

Definition warning_record : log_record :=
  Log WARNING "Config file not found at %s, using default" ["backendcfg.txt"].

Definition error_record (e : exn) : log_record :=
  Log ERROR "Error loading config file: %s, using default configuration"
      [exn_msg e].

Definition info_record (c : gmap string string) : log_record :=
  Log INFO "Loaded config in file: IP = %s, port = %d, X-Auth-Token = %s"
      [c !!! "backend_ip"; c !!! "port"; c !!! "X-Auth-Token"].

(** What the loader reads from a file that opens. *)
Definition parsed (f : file) : gmap string string :=
  foldl after_line default_config (file_lines f).

(** The reading under which key and value are both trimmed after the
    split at the first colon, and the trimmed key is the one compared. *)
Definition trims_key_and_value : Prop :=
  forall (line key value : string) (c : gmap string string) (g : world),
    find_sep ":" line = Some (key, value) ->
    recognized (strip key) = true ->
    process_line line (Frame c g) =
    (Returns tt, Frame (<[strip key := strip value]> c) g).

(** The reading under which a failure while reading always gives the
    defaults back. *)
Definition failure_gives_defaults : Prop :=
  forall (F : gmap string file) (L : list log_record) (f : file) (e : exn),
    F !! config_path = Some f ->
    open_error f = Some e \/ read_error f = Some e ->
    is_Exception e = true ->
    fst (load_server_config (World F L)) = Returns default_config.

(** *** Sample files *)

Definition only_backend_ip : file :=
  File None ["backend_ip: 10.0.0.5" +:+ LF] None.

Definition two_settings : file :=
  File None ["backend_ip: 10.0.0.5" +:+ LF; "port: 99" +:+ LF] None.

Definition spaced_key : file :=
  File None ["backend_ip : 10.0.0.5" +:+ LF] None.

(** A file whose first line is read, and whose reading then fails: bytes
    beyond the first buffer that do not decode. *)
Definition undecodable_tail : file :=
  File None ["backend_ip: 10.0.0.5" +:+ LF]
       (Some (Exn UnicodeDecodeError
                "'utf-8' codec can't decode byte 0xff in position 0: invalid start byte")).

Definition unreadable : file :=
  File (Some (Exn PermissionError "Permission denied: 'backendcfg.txt'"))
       [] None.

Definition fs_with (f : file) : gmap string file := <[config_path := f]> ∅.

End Config.


(** ** The request handler *)

Module Handler.

(** Python values as [request.get_json()] delivers them.  A float is
    identified by its [repr], which determines it; a dict is kept in
    insertion order, and lookups take the first binding of a key (the keys
    of a dict the interpreter builds are distinct). *)
#[local] Set Warnings "-register-all".
Inductive pyvalue :=
| PyNone
| PyBool (b : bool)
| PyInt (z : Z)
| PyFloat (r : string)
| PyStr (s : string)
| PyList (l : list pyvalue)
| PyDict (d : list (string * pyvalue)).
#[local] Set Warnings "+register-all".

(** [type(v).__name__] *)
Definition type_name (v : pyvalue) : string :=
  match v with
  | PyNone => "NoneType"
  | PyBool _ => "bool"
  | PyInt _ => "int"
  | PyFloat _ => "float"
  | PyStr _ => "str"
  | PyList _ => "list"
  | PyDict _ => "dict"
  end.

(** [bool(v)], the test behind [not v]. *)
Definition truthy (v : pyvalue) : bool :=
  match v with
  | PyNone => false
  | PyBool b => b
  | PyInt z => negb (z =? 0)%Z
  | PyFloat r => negb (String.eqb r "0.0" || String.eqb r "-0.0")
  | PyStr s => negb (String.eqb s "")
  | PyList l => match l with [] => false | _ => true end
  | PyDict d => match d with [] => false | _ => true end
  end.

Definition squote : ascii := "'".
Definition dquote : ascii := ascii_of_nat 34.
Definition backslash : ascii := ascii_of_nat 92.

Definition hex_digit (n : nat) : ascii :=
  if (n <? 10)%nat then ascii_of_nat (48 + n) else ascii_of_nat (87 + n).

Definition char (c : ascii) : string := String c EmptyString.

(** One character of [repr] of a str, for code points below 256: the
    quote and the backslash are escaped, TAB, LF and CR have their short
    escapes, other unprintable characters are written [\xNN]. *)
Definition repr_char (quote c : ascii) : string :=
  let n := nat_of_ascii c in
  if Ascii.eqb c quote || Ascii.eqb c backslash then String backslash (char c)
  else if (n =? 9)%nat then String backslash "t"
  else if (n =? 10)%nat then String backslash "n"
  else if (n =? 13)%nat then String backslash "r"
  else if (n <? 32)%nat || ((127 <=? n)%nat && (n <=? 160)%nat)
          || (n =? 173)%nat
  then String backslash
         (String "x" (String (hex_digit (n / 16)) (char (hex_digit (n mod 16)))))
  else char c.

Fixpoint has_char (c : ascii) (s : string) : bool :=
  match s with
  | EmptyString => false
  | String c' s' => Ascii.eqb c c' || has_char c s'
  end.

Fixpoint escape (quote : ascii) (s : string) : string :=
  match s with
  | EmptyString => EmptyString
  | String c s' => repr_char quote c +:+ escape quote s'
  end.

(** [repr(s)] for a str: single quotes, unless the text has a single quote
    and no double quote. *)
Definition repr_str (s : string) : string :=
  let quote := if has_char squote s && negb (has_char dquote s)
               then dquote else squote in
  String quote (escape quote s +:+ char quote).

(** [sep.join(xs)] *)
Fixpoint join (sep : string) (xs : list string) : string :=
  match xs with
  | [] => EmptyString
  | [x] => x
  | x :: rest => x +:+ sep +:+ join sep rest
  end.

(** [repr(v)] *)
Fixpoint py_repr (v : pyvalue) : string :=
  match v with
  | PyNone => "None"
  | PyBool true => "True"
  | PyBool false => "False"
  | PyInt z => str_of_int z
  | PyFloat r => r
  | PyStr s => repr_str s
  | PyList l => "[" +:+ join ", " (map py_repr l) +:+ "]"
  | PyDict d =>
      "{" +:+ join ", "
                (map (fun kv => repr_str (fst kv) +:+ ": " +:+ py_repr (snd kv)) d)
          +:+ "}"
  end.

(** [format(v, "")], what a replacement field [{v}] of an f-string
    produces: the text itself for a str, [repr] for the other types. *)
Definition py_format (v : pyvalue) : string :=
  match v with
  | PyStr s => s
  | _ => py_repr v
  end.

(** The parts of an f-string: literal text and replacement fields. *)
Inductive fpart :=
| Lit (s : string)
| Field (v : pyvalue).

Definition fstring (parts : list fpart) : string :=
  String.concat EmptyString
    (map (fun p => match p with Lit s => s | Field v => py_format v end) parts).

(** [d.get(key)] on the pairs of a dict. *)
Fixpoint dict_get (d : list (string * pyvalue)) (key : string) : pyvalue :=
  match d with
  | [] => PyNone
  | (k, v) :: d' => if String.eqb k key then v else dict_get d' key
  end.

(** The attribute call [data.get(key)]: only a dict has the method. *)
Definition get_method {S} (data : pyvalue) (key : string) : M S pyvalue :=
  match data with
  | PyDict d => ret (dict_get d key)
  | _ => raise (Exn AttributeError
                  ("'" +:+ type_name data +:+ "' object has no attribute 'get'"))
  end.

(** What an expression evaluates to: a plain value, or an awaitable that
    resolves to an outcome. *)
Inductive pyobj :=
| Value (v : pyvalue)
| Awaitable (result : outcome pyvalue).

(** [await o] inside a coroutine (message as of CPython 3.8 to 3.13). *)
Definition await {S} (o : pyobj) : M S pyvalue :=
  match o with
  | Awaitable r => lift r
  | Value v =>
      raise (Exn TypeError
               ("object " +:+ type_name v
                  +:+ " can't be used in 'await' expression"))
  end.

(** The response object of the provider: its [text] attribute, a str, or
    None when the reply carries no text. *)
Record generate_response := GenerateResponse { text : pyvalue }.

(** The provider behind [client.models.generate_content]: for a model name
    and a prompt, a response or a raised error. *)
Definition provider : Type := string -> string -> outcome generate_response.

(** The state the handler touches: the calls made to the provider so far,
    as pairs of model name and contents. *)
Definition calls : Type := list (string * string).

Definition generate_content (client : provider) (model contents : string)
  : M calls generate_response :=
  fun cs => (client model contents, cs ++ [(model, contents)]).

(** [handleAIRequest(req)], lines 57 to 61. *)
Definition handleAIRequest (client : provider) (req : string)
  : M calls pyvalue :=
  response <- generate_content client "gemini-2.0-flash" req ;;
  ret (text response).

(** The dict handed to [jsonify], in the order written. *)
Inductive response :=
| jsonify (body : list (string * pyvalue)).

Definition error_envelope : response :=
  jsonify [("status", PyStr "error");
           ("message",
            PyStr "Error while handling request! Please check your request.")].

(** The prompt of line 74, as the f-string is compiled. *)
Definition aireq_of (packet_size packet_rate protocol_type connection_state
                       payload_pattern : pyvalue) : string :=
  fstring [Lit "REQUEST CHECK: packet_size = "; Field packet_size;
           Lit ", packet_rate = "; Field packet_rate;
           Lit ", protocol_type = "; Field protocol_type;
           Lit ", connection_state = "; Field connection_state;
           Lit ", payload_pattern = "; Field payload_pattern].

(** The body of the coroutine [handlePacket], lines 65 to 76, run to
    completion on [data], the result of [request.get_json()].
    [handleAIRequest] is a plain [def], so calling it yields the value it
    returns, and that value is what [await] is applied to. *)
Definition handlePacket (client : provider) (data : pyvalue)
  : M calls response :=
  packet_size <- get_method data "packet_size" ;;
  packet_rate <- get_method data "packet_rate" ;;
  protocol_type <- get_method data "protocol_type" ;;
  connection_state <- get_method data "connection_state" ;;
  payload_pattern <- get_method data "payload_pattern" ;;
  if negb (truthy packet_size) || negb (truthy packet_rate)
     || negb (truthy protocol_type) || negb (truthy connection_state)
     || negb (truthy payload_pattern)
  then ret error_envelope
  else
    let aireq := aireq_of packet_size packet_rate protocol_type
                          connection_state payload_pattern in
    called <- handleAIRequest client aireq ;;
    result <- await (Value called) ;;
    ret (jsonify [("status", PyStr "sucess"); ("message", result)]).

(** *** The framework around the view

    Flask's request dispatch with its default error handling (no debug
    mode, no propagated exceptions): a returned response is sent with
    status 200; an exception that derives from [Exception] is logged and
    answered with status 500; the worker goes on with the next request. *)
Inductive http_response :=
| Http (status : nat) (body : option response).

Definition full_dispatch_request (client : provider) (data : pyvalue)
  : M calls http_response :=
  try_except
    (r <- handlePacket client data ;; ret (Http 200 (Some r)))
    (fun _ => ret (Http 500 None)).

Fixpoint serve (client : provider) (requests : list pyvalue)
  : M calls (list http_response) :=
  match requests with
  | [] => ret []
  | data :: rest =>
      r <- full_dispatch_request client data ;;
      rs <- serve client rest ;;
      ret (r :: rs)
  end.

(** *** Vocabulary for stating what the handler does *)

Definition required_fields : list string :=
  ["packet_size"; "packet_rate"; "protocol_type"; "connection_state";
   "payload_pattern"].

(** The value of a field of a request body: the member of that name when
    the body is an object that has it, None when it is missing. *)
Definition field (data : pyvalue) (key : string) : pyvalue :=
  match data with
  | PyDict d => dict_get d key
  | _ => PyNone
  end.

(** All five fields are present and truthy. *)
Definition all_present (data : pyvalue) : bool :=
  forallb (fun k => truthy (field data k)) required_fields.

(** The template of the prompt, as the specification writes it. *)
Definition prompt_template : string :=
  "REQUEST CHECK: packet_size = {packet_size}, packet_rate = {packet_rate}, protocol_type = {protocol_type}, connection_state = {connection_state}, payload_pattern = {payload_pattern}".

Fixpoint lookup_name (env : list (string * string)) (name : string)
  : option string :=
  match env with
  | [] => None
  | (k, v) :: env' => if String.eqb k name then Some v else lookup_name env' name
  end.

(** Substitution into a template, in one pass from left to right: text
    outside braces is copied, [{name}] is replaced by the value bound to
    [name] (and left as it is when nothing is bound).  [pending] is the
    name being read after an opening brace. *)
Fixpoint substitute_from (env : list (string * string))
    (pending : option string) (t : string) : string :=
  match t with
  | EmptyString =>
      match pending with
      | None => EmptyString
      | Some name => String "{" name
      end
  | String c t' =>
      match pending with
      | None =>
          if Ascii.eqb c "{" then substitute_from env (Some EmptyString) t'
          else String c (substitute_from env None t')
      | Some name =>
          if Ascii.eqb c "}" then
            match lookup_name env name with
            | Some v => v
            | None => String "{" (name +:+ "}")
            end +:+ substitute_from env None t'
          else substitute_from env (Some (name +:+ char c)) t'
      end
  end.

Definition substitute (env : list (string * string)) (t : string) : string :=
  substitute_from env None t.

(** The template with the five field values of [data] substituted. *)
Definition spec_prompt (data : pyvalue) : string :=
  substitute (map (fun k => (k, py_format (field data k))) required_fields)
             prompt_template.

(** The model every call names. *)
Definition model_name : string := "gemini-2.0-flash".

(** At least one of the five fields is missing or falsy. *)
Definition incomplete (data : pyvalue) : Prop :=
  exists k, k ∈ required_fields /\ truthy (field data k) = false.

(** The reading under which every body with a missing or falsy field, of
    whatever JSON type, is answered with the error envelope and no call to
    the provider. *)
Definition rejects_every_incomplete_body : Prop :=
  forall (client : provider) (data : pyvalue) (t : calls),
    incomplete data -> handlePacket client data t = (Returns error_envelope, t).

(** The envelope the specification gives for a completed request. *)
Definition success_envelope (message : pyvalue) : response :=
  jsonify [("status", PyStr "success"); ("message", message)].

(** The reading under which a completion is handed back in a success
    envelope. *)
Definition returns_completion : Prop :=
  forall (client : provider) (data : pyvalue) (t : calls)
         (r : generate_response),
    all_present data = true ->
    client "gemini-2.0-flash" (spec_prompt data) = Returns r ->
    fst (handlePacket client data t) = Returns (success_envelope (text r)).

(** *** Sample requests and providers *)

Definition scenario_1 : pyvalue :=
  PyDict [("packet_size", PyInt 100); ("packet_rate", PyInt 5);
          ("protocol_type", PyStr "TCP");
          ("connection_state", PyStr "ESTABLISHED");
          ("payload_pattern", PyStr "random")].

Definition scenario_2 : pyvalue :=
  PyDict [("packet_size", PyInt 100); ("packet_rate", PyInt 5);
          ("protocol_type", PyStr "TCP")].

Definition steady_client : provider :=
  fun _ _ => Returns (GenerateResponse (PyStr "benign")).

Definition failing_client : provider :=
  fun _ _ => Raises (Exn ProviderError "503 UNAVAILABLE").

End Handler.

(** ** The module top level *)

Module Bootstrap.

(** A top-level statement, reduced to the global names it looks up, in the
    order the interpreter loads them, and the names it binds. *)
Inductive stmt :=
| Import (names : list string)
| Exec (loads : list string) (binds : list string)
| Def (decorator_loads : list string) (name : string).

Definition loads_of (s : stmt) : list string :=
  match s with
  | Import _ => []
  | Exec loads _ => loads
  | Def decorator_loads _ => decorator_loads
  end.

Definition binds_of (s : stmt) : list string :=
  match s with
  | Import names => names
  | Exec _ binds => binds
  | Def _ name => [name]
  end.

(** The statements of [server.py] with their line numbers. *)
Definition server_py : list (nat * stmt) :=
  [(1, Import ["os"; "threading"; "sys"; "random"; "time"; "csv"; "logging"]);
   (2, Import ["load_dotenv"]);
   (3, Import ["Flask"; "request"; "jsonify"]);
   (4, Import ["JWTManager"; "create_access_token"; "jwt_required";
               "get_jwt_identity"]);
   (5, Import ["genai"]);
   (6, Import ["StringIO"]);
   (8, Exec ["load_dotenv"] []);
   (10, Exec ["os"] ["genai_api"]);
   (12, Exec ["logging"; "logging"; "logging"; "logging"; "sys"] []);
   (21, Exec ["logging"; "__name__"] ["logger"]);
   (23, Def [] "load_server_config");
   (45, Exec ["load_server_config"; "os"; "logger"] ["config"]);
   (47, Exec ["Flask"; "__name__"] ["app"]);
   (48, Exec ["os"; "app"] []);
   (49, Exec ["JWTManager"; "app"] ["jwt"]);
   (50, Exec ["SocketIO"; "app"] ["socketio"]);
   (51, Exec ["logger"] []);
   (53, Exec ["datetime"; "timezone"] ["server_start_time"]);
   (55, Exec ["genai"; "genai_api"] ["client"]);
   (57, Def [] "handleAIRequest");
   (63, Def ["app"] "handlePacket")]%nat.

(** The statements of lines 12, 50 and 53. *)
Definition line_12 : stmt :=
  Exec ["logging"; "logging"; "logging"; "logging"; "sys"] [].
Definition line_50 : stmt := Exec ["SocketIO"; "app"] ["socketio"].
Definition line_53 : stmt := Exec ["datetime"; "timezone"] ["server_start_time"].

(** The names a module starts with: its own attributes and the built-in
    namespace. *)
Definition preset_list : list string :=
    ["__name__"; "__doc__"; "__file__"; "__package__"; "__loader__";
     "__spec__"; "__builtins__"; "__import__"; "__build_class__";
     "__debug__";
     "abs"; "aiter"; "all"; "anext"; "any"; "ascii"; "bin"; "bool";
     "breakpoint"; "bytearray"; "bytes"; "callable"; "chr"; "classmethod";
     "compile"; "complex"; "copyright"; "credits"; "delattr"; "dict"; "dir";
     "divmod"; "enumerate"; "eval"; "exec"; "exit"; "filter"; "float";
     "format"; "frozenset"; "getattr"; "globals"; "hasattr"; "hash"; "help";
     "hex"; "id"; "input"; "int"; "isinstance"; "issubclass"; "iter"; "len";
     "license"; "list"; "locals"; "map"; "max"; "memoryview"; "min"; "next";
     "object"; "oct"; "open"; "ord"; "pow"; "print"; "property"; "quit";
     "range"; "repr"; "reversed"; "round"; "set"; "setattr"; "slice";
     "sorted"; "staticmethod"; "str"; "sum"; "super"; "tuple"; "type";
     "vars"; "zip";
     "None"; "True"; "False"; "Ellipsis"; "NotImplemented";
     "BaseException"; "BaseExceptionGroup"; "Exception"; "ExceptionGroup";
     "GeneratorExit"; "KeyboardInterrupt"; "SystemExit";
     "ArithmeticError"; "AssertionError"; "AttributeError"; "BlockingIOError";
     "BrokenPipeError"; "BufferError"; "ChildProcessError";
     "ConnectionAbortedError"; "ConnectionError"; "ConnectionRefusedError";
     "ConnectionResetError"; "EOFError"; "EnvironmentError";
     "FileExistsError"; "FileNotFoundError"; "FloatingPointError"; "IOError";
     "ImportError"; "IndentationError"; "IndexError"; "InterruptedError";
     "IsADirectoryError"; "KeyError"; "LookupError"; "MemoryError";
     "ModuleNotFoundError"; "NameError"; "NotADirectoryError";
     "NotImplementedError"; "OSError"; "OverflowError"; "PermissionError";
     "ProcessLookupError"; "RecursionError"; "ReferenceError"; "RuntimeError";
     "StopAsyncIteration"; "StopIteration"; "SyntaxError"; "SystemError";
     "TabError"; "TimeoutError"; "TypeError"; "UnboundLocalError";
     "UnicodeDecodeError"; "UnicodeEncodeError"; "UnicodeError";
     "UnicodeTranslateError"; "ValueError"; "ZeroDivisionError";
     "BytesWarning"; "DeprecationWarning"; "EncodingWarning"; "FutureWarning";
     "ImportWarning"; "PendingDeprecationWarning"; "ResourceWarning";
     "RuntimeWarning"; "SyntaxWarning"; "UnicodeWarning"; "UserWarning";
     "Warning"].

Definition preset_names : gset string := list_to_set preset_list.

(** The first of [names] that is not bound in [env]. *)
Fixpoint first_unbound (env : gset string) (names : list string)
  : option string :=
  match names with
  | [] => None
  | x :: rest =>
      if bool_decide (x ∈ env) then first_unbound env rest else Some x
  end.

Definition name_error (x : string) : exn :=
  Exn NameError ("name '" +:+ x +:+ "' is not defined").

Inductive result :=
| Completed (env : gset string)
| Failed (lineno : nat) (e : exn).

(** Running the statements in order.  [ext n] is what the environment
    makes the statement of line [n] raise, if anything: a package that is
    not installed, a log directory that does not exist, an attribute the
    installed package does not have.  In the two
    statements of this module that load an unbound name, that load is the
    first thing the statement does, so the lookup is tried first. *)
Fixpoint run (ext : nat -> option exn) (env : gset string)
    (prog : list (nat * stmt)) : result :=
  match prog with
  | [] => Completed env
  | (n, s) :: rest =>
      match first_unbound env (loads_of s) with
      | Some x => Failed n (name_error x)
      | None =>
          match ext n with
          | Some e => Failed n e
          | None => run ext (env ∪ list_to_set (binds_of s)) rest
          end
      end
  end.

(** Importing the module; the listener can serve the application only
    once this has completed. *)
Definition import_module (ext : nat -> option exn) : result :=
  run ext preset_names server_py.

Definition binds_list (prog : list (nat * stmt)) : list string :=
  concat (map (fun p => binds_of (snd p)) prog).

Definition all_binds (prog : list (nat * stmt)) : gset string :=
  list_to_set (binds_list prog).

(** A check on lists: every name a statement loads is among [bound] or
    bound by a statement before it. *)
Fixpoint scoped (bound : list string) (prog : list (nat * stmt)) : bool :=
  match prog with
  | [] => true
  | (_, s) :: rest =>
      forallb (fun x => bool_decide (x ∈ bound)) (loads_of s)
      && scoped (bound ++ binds_of s) rest
  end.

(** The statements before a given line, and from it on. *)
Definition before (n : nat) (prog : list (nat * stmt)) : list (nat * stmt) :=
  filter (fun p => fst p < n)%nat prog.
Definition from (n : nat) (prog : list (nat * stmt)) : list (nat * stmt) :=
  filter (fun p => n <= fst p)%nat prog.

(** An environment in which nothing fails from outside. *)
Definition healthy : nat -> option exn := fun _ => None.

(** An environment without the directory [data/log]: the [FileHandler] of
    line 16, inside the statement of line 12, cannot open its file. *)
Definition no_log_directory : nat -> option exn :=
  fun n => if (n =? 12)%nat
           then Some (Exn FileNotFoundError
                        "No such file or directory: 'data/log/server.log'")
           else None.

(** The reading under which every start of the process ends in a
    NameError. *)
Definition always_name_error : Prop :=
  forall ext : nat -> option exn,
    exists n x, import_module ext = Failed n (name_error x).

End Bootstrap.

(** ** Rendering a log record *)

Module LogFormat.
Import Config.

Definition prepend (s : string) (r : option (outcome string))
  : option (outcome string) :=
  match r with
  | Some (Returns t) => Some (Returns (s +:+ t))
  | other => other
  end.

(** [fmt % args] for a tuple [args] of str values, read from left to
    right.  The directives covered are the ones the module writes, [%s]
    and [%d], and the escape [%%]; on any other directive the result is
    [None], left open.  [%d] asks for a number, and every argument here is
    a str. *)
Fixpoint percent_format (fmt : string) (args : list string)
  : option (outcome string) :=
  match fmt with
  | EmptyString =>
      match args with
      | [] => Some (Returns EmptyString)
      | _ :: _ =>
          Some (Raises (Exn TypeError
                  "not all arguments converted during string formatting"))
      end
  | String c rest =>
      if Ascii.eqb c "%" then
        match rest with
        | EmptyString => Some (Raises (Exn ValueError "incomplete format"))
        | String d rest' =>
            if Ascii.eqb d "%" then prepend "%" (percent_format rest' args)
            else if Ascii.eqb d "s" then
              match args with
              | [] => Some (Raises (Exn TypeError
                              "not enough arguments for format string"))
              | a :: args' => prepend a (percent_format rest' args')
              end
            else if Ascii.eqb d "d" then
              match args with
              | [] => Some (Raises (Exn TypeError
                              "not enough arguments for format string"))
              | _ :: _ =>
                  Some (Raises (Exn TypeError
                          "%d format: a real number is required, not str"))
              end
            else None
        end
      else prepend (String c EmptyString) (percent_format rest args)
  end.

(** [LogRecord.getMessage()]: the format string itself when there are no
    arguments, [msg % args] otherwise. *)
Definition getMessage (r : log_record) : option (outcome string) :=
  match log_args r with
  | [] => Some (Returns (log_format r))
  | args => percent_format (log_format r) args
  end.

End LogFormat.

(** ** More vocabulary and sample inputs *)

Module More.
Import Config Handler.

Definition recognized_keys : list string :=
  ["backend_ip"; "port"; "X-Auth-Token"].

(** The line makes the loop body assign: it has a colon, and the text
    before the first colon of the trimmed line is a recognized key. *)
Definition assigns (line : string) : bool :=
  str_in ":" line &&
  match find_sep ":" (strip line) with
  | Some (key, _) => recognized key
  | None => false
  end.

(** The key the loop body compares for a line: the text before the first
    colon of the trimmed line, when the line has a colon. *)
Definition line_key (line : string) : option string :=
  if str_in ":" line then
    match find_sep ":" (strip line) with
    | Some (key, _) => Some key
    | None => None
    end
  else None.

(** The dict has the three keys and no other. *)
Definition exact_keys (c : gmap string string) : Prop :=
  forall k, is_Some (c !! k) <-> k ∈ recognized_keys.

(** No value of the dict has whitespace at either end. *)
Definition trimmed_values (c : gmap string string) : Prop :=
  forall k v, c !! k = Some v -> strip v = v.

(** The lines the iteration over a file delivers for its text (decoded,
    with line endings already translated to LF): each line keeps its
    terminator, and a last line without one is delivered as it is. *)
Fixpoint text_lines (t : string) : list string :=
  match t with
  | EmptyString => []
  | String c t' =>
      if Ascii.eqb c (ascii_of_nat 10) then String c EmptyString :: text_lines t'
      else match text_lines t' with
           | [] => [String c EmptyString]
           | l :: ls => String c l :: ls
           end
  end.

(** A file that opens and is read to its end. *)
Definition readable (lines : list string) : file := File None lines None.

(** A value with blanks around it. *)
Definition padded_port : file := File None ["port:   8080  " +:+ LF] None.

(** A read interrupted from the keyboard after the first line. *)
Definition interrupted : file :=
  File None ["backend_ip: 10.0.0.5" +:+ LF]
       (Some (Exn KeyboardInterrupt EmptyString)).

(** The values Python takes for false among those JSON can carry. *)
Definition falsy_values : list pyvalue :=
  [PyNone; PyBool false; PyInt 0; PyFloat "0.0"; PyFloat "-0.0";
   PyStr EmptyString; PyList []; PyDict []].

(** The first scenario with a member the handler does not read. *)
Definition scenario_1_with_extra : list (string * pyvalue) :=
  [("note", PyStr "ignored"); ("packet_size", PyInt 100);
   ("packet_rate", PyInt 5); ("protocol_type", PyStr "TCP");
   ("connection_state", PyStr "ESTABLISHED");
   ("payload_pattern", PyStr "random")].

Definition scenario_1_members : list (string * pyvalue) :=
  [("packet_size", PyInt 100); ("packet_rate", PyInt 5);
   ("protocol_type", PyStr "TCP");
   ("connection_state", PyStr "ESTABLISHED");
   ("payload_pattern", PyStr "random")].

(** The first scenario with a packet rate of zero. *)
Definition zero_rate_members : list (string * pyvalue) :=
  [("packet_size", PyInt 100); ("packet_rate", PyInt 0);
   ("protocol_type", PyStr "TCP");
   ("connection_state", PyStr "ESTABLISHED");
   ("payload_pattern", PyStr "random")].

End More.

Module MoreBootstrap.
Import Bootstrap.

(** The statement of line 55. *)
Definition line_55 : stmt := Exec ["genai"; "genai_api"] ["client"].

(** An environment whose installed [google.generativeai] has no [Client]:
    the attribute lookup of line 55 fails. *)
Definition no_genai_client : nat -> option exn :=
  fun n => if (n =? 55)%nat
           then Some (Exn AttributeError
                        "module 'google.generativeai' has no attribute 'Client'")
           else None.

(** The module without the statements of lines 50 and 53. *)
Definition without_50_and_53 : list (nat * stmt) :=
  filter (fun p => fst p ≠ 50%nat /\ fst p ≠ 53%nat) server_py.

End MoreBootstrap.
(** ** Facts about the string primitives *)

Section OneCharSeparator.

Variable ch : ascii.
Let sep : string := String ch EmptyString.

Lemma prefix_one_char (c : ascii) (s : string) :
  String.prefix sep (String c s) = Ascii.eqb ch c.
Proof.
  unfold sep. simpl. destruct (Ascii.eqb_spec ch c) as [->|Hne].
  - destruct (ascii_dec c c); [now destruct s | contradiction].
  - destruct (ascii_dec ch c); [contradiction | reflexivity].
Qed.

Lemma str_in_cons (c : ascii) (s : string) :
  str_in sep (String c s) = Ascii.eqb ch c || str_in sep s.
Proof. cbn [str_in]. now rewrite prefix_one_char. Qed.

Lemma str_in_empty : str_in sep EmptyString = false.
Proof. reflexivity. Qed.

Lemma find_sep_cons (c : ascii) (s : string) :
  find_sep sep (String c s) =
  if Ascii.eqb ch c then Some (EmptyString, s)
  else match find_sep sep s with
       | Some (a, b) => Some (String c a, b)
       | None => None
       end.
Proof. cbn [find_sep]. rewrite prefix_one_char. reflexivity. Qed.

Lemma str_in_find_sep (s : string) :
  str_in sep s = true -> exists a b, find_sep sep s = Some (a, b).
Proof.
  induction s as [|c s IH]; [discriminate|].
  rewrite str_in_cons, find_sep_cons.
  destruct (Ascii.eqb ch c); simpl; [eauto|].
  intros H. destruct (IH H) as (a & b & ->). eauto.
Qed.

Lemma find_sep_None (s : string) :
  str_in sep s = false -> find_sep sep s = None.
Proof.
  induction s as [|c s IH]; [reflexivity|].
  rewrite str_in_cons, find_sep_cons.
  destruct (Ascii.eqb ch c); simpl; [discriminate|].
  intros H. now rewrite (IH H).
Qed.

(** Splitting happens at the first occurrence of the separator. *)
Lemma find_sep_first (key rest : string) :
  str_in sep key = false ->
  find_sep sep (key +:+ sep +:+ rest) = Some (key, rest).
Proof.
  induction key as [|c key IH]; intros H.
  - change (find_sep sep (String ch rest) = Some (EmptyString, rest)).
    rewrite find_sep_cons. now rewrite Ascii.eqb_refl.
  - rewrite str_in_cons in H. apply orb_false_elim in H as [Hc Hk].
    change (find_sep sep (String c (key +:+ sep +:+ rest))
            = Some (String c key, rest)).
    rewrite find_sep_cons, Hc, (IH Hk). reflexivity.
Qed.

Lemma str_in_append (a b : string) :
  str_in sep (a +:+ b) = str_in sep a || str_in sep b.
Proof.
  induction a as [|c a IH]; [reflexivity|].
  change (str_in sep (String c (a +:+ b))
          = str_in sep (String c a) || str_in sep b).
  rewrite !str_in_cons, IH. now rewrite orb_assoc.
Qed.

Hypothesis ch_not_space : isspace ch = false.

Lemma eqb_space_false (c : ascii) : isspace c = true -> Ascii.eqb ch c = false.
Proof.
  intros Hc. destruct (Ascii.eqb_spec ch c) as [->|]; [|reflexivity].
  congruence.
Qed.

Lemma str_in_lstrip (s : string) : str_in sep (lstrip s) = str_in sep s.
Proof.
  induction s as [|c s IH]; [reflexivity|].
  cbn [lstrip]. destruct (isspace c) eqn:Hc; [|reflexivity].
  rewrite str_in_cons, (eqb_space_false c Hc). exact IH.
Qed.

Lemma str_in_rstrip (s : string) : str_in sep (rstrip s) = str_in sep s.
Proof.
  induction s as [|c s IH]; [reflexivity|].
  cbn [rstrip]. rewrite str_in_cons, <- IH.
  destruct (rstrip s) as [|c' r] eqn:Hr.
  - destruct (isspace c) eqn:Hc.
    + now rewrite (eqb_space_false c Hc).
    + rewrite str_in_cons. reflexivity.
  - rewrite str_in_cons. reflexivity.
Qed.

Lemma str_in_strip (s : string) : str_in sep (strip s) = str_in sep s.
Proof. unfold strip. now rewrite str_in_rstrip, str_in_lstrip. Qed.

End OneCharSeparator.

Lemma colon_not_space : isspace ":" = false.
Proof. reflexivity. Qed.

(** ** Facts about the loader *)

Module ConfigFacts.
Import Config.

(** A line with a colon always unpacks into exactly two parts. *)
Lemma split_strip_two (line : string) :
  str_in ":" line = true ->
  exists key value, split_1 ":" (strip line) = [key; value].
Proof.
  intros H. rewrite <- (str_in_strip _ colon_not_space) in H.
  destruct (str_in_find_sep _ _ H) as (a & b & Hab).
  exists a, b. unfold split_1. now rewrite Hab.
Qed.

(** The loop body never raises and touches nothing but [config]. *)
Lemma process_line_eq (line : string) (c : gmap string string) (g : world) :
  process_line line (Frame c g) = (Returns tt, Frame (after_line c line) g).
Proof.
  unfold after_line, process_line.
  destruct (str_in ":" line) eqn:Hin; [|reflexivity].
  destruct (split_strip_two line Hin) as (key & value & ->).
  cbn [unpack2 bind ret].
  destruct (String.eqb key "backend_ip"); [reflexivity|].
  destruct (String.eqb key "port"); [reflexivity|].
  destruct (String.eqb key "X-Auth-Token"); reflexivity.
Qed.

Lemma process_line_no_colon (line : string) (fr : frame) :
  str_in ":" line = false -> process_line line fr = (Returns tt, fr).
Proof. intros H. unfold process_line. now rewrite H. Qed.

Lemma process_line_first_colon (line key rest : string)
    (c : gmap string string) (g : world) :
  strip line = key +:+ ":" +:+ rest ->
  str_in ":" key = false ->
  process_line line (Frame c g) =
  (Returns tt,
   Frame (if recognized key then <[key := strip rest]> c else c) g).
Proof.
  intros Hline Hkey. unfold process_line.
  assert (Hin : str_in ":" line = true).
  { rewrite <- (str_in_strip _ colon_not_space), Hline, !str_in_append.
    cbn. now rewrite orb_true_r. }
  rewrite Hin. unfold split_1. rewrite Hline, (find_sep_first _ _ _ Hkey).
  cbn [unpack2 bind ret]. unfold recognized.
  destruct (String.eqb_spec key "backend_ip") as [->|H1]; [reflexivity|].
  destruct (String.eqb_spec key "port") as [->|H2]; [reflexivity|].
  destruct (String.eqb_spec key "X-Auth-Token") as [->|H3]; [reflexivity|].
  rewrite bool_decide_eq_false_2; [reflexivity|].
  rewrite !elem_of_cons, elem_of_nil. tauto.
Qed.

Lemma after_line_keys (c : gmap string string) (line : string) :
  has_keys c -> has_keys (after_line c line).
Proof.
  intros (Hi & Hp & Ht). unfold after_line, process_line.
  destruct (str_in ":" line) eqn:Hin; [|by repeat split].
  destruct (split_strip_two line Hin) as (key & value & ->).
  cbn [unpack2 bind ret].
  destruct (String.eqb key "backend_ip");
    [|destruct (String.eqb key "port");
      [|destruct (String.eqb key "X-Auth-Token")]];
    cbn; repeat split;
    try assumption; try (rewrite lookup_insert; case_decide; eauto).
Qed.

Lemma default_config_keys : has_keys default_config.
Proof. repeat split; vm_compute; eauto. Qed.

Lemma fold_after_line_keys (lines : list string) (c : gmap string string) :
  has_keys c -> has_keys (foldl after_line c lines).
Proof.
  revert c. induction lines as [|l lines IH]; intros c Hc; [exact Hc|].
  cbn. apply IH. now apply after_line_keys.
Qed.

(** The [for] loop: every line is processed in order; a failing read
    surfaces after the lines delivered before it have been applied. *)
Lemma for_lines_eq (lines : list string) (err : option exn)
    (c : gmap string string) (g : world) :
  for_lines lines err process_line (Frame c g) =
  (match err with Some e => Raises e | None => Returns tt end,
   Frame (foldl after_line c lines) g).
Proof.
  revert c. induction lines as [|l lines IH]; intros c.
  - cbn. now destruct err.
  - cbn [for_lines foldl]. unfold bind at 1. rewrite process_line_eq.
    apply IH.
Qed.

(** The loader in closed form. *)
Lemma load_server_config_eq (F : gmap string file) (L : list log_record) :
  load_server_config (World F L) =
  match F !! config_path with
  | None => (Returns default_config, World F (L ++ [warning_record]))
  | Some f =>
      match open_error f with
      | Some e =>
          if is_Exception e
          then (Returns default_config, World F (L ++ [error_record e]))
          else (Raises e, World F L)
      | None =>
          match read_error f with
          | None => (Returns (parsed f), World F (L ++ [info_record (parsed f)]))
          | Some e =>
              if is_Exception e
              then (Returns (parsed f), World F (L ++ [error_record e]))
              else (Raises e, World F L)
          end
      end
  end.
Proof.
  unfold load_server_config, load_server_config_body, try_except, try_block,
    os_path_exists, open_r, getitem, logger_call.
  cbv beta iota zeta delta [bind get ret raise modify globals fs config log].
  destruct (F !! config_path) as [f|] eqn:HF.
  - rewrite bool_decide_eq_true_2 by eauto. cbv beta iota delta [negb].
    rewrite ?HF.
    destruct (open_error f) as [e|] eqn:Ho; cbv beta iota.
    + destruct (is_Exception e); reflexivity.
    + rewrite for_lines_eq.
      destruct (read_error f) as [e|] eqn:Hr; cbv beta iota.
      * destruct (is_Exception e); reflexivity.
      * destruct (fold_after_line_keys (file_lines f) default_config
                    default_config_keys) as ([i Hi] & [p Hp] & [t Ht]).
        fold (parsed f) in Hi, Hp, Ht |- *.
        cbv beta iota zeta delta [globals fs config log].
        rewrite Hi. cbv beta iota. rewrite Hp. cbv beta iota.
        rewrite Ht. cbv beta iota. unfold info_record.
        rewrite (lookup_total_correct _ _ _ Hi), (lookup_total_correct _ _ _ Hp),
          (lookup_total_correct _ _ _ Ht).
        reflexivity.
  - rewrite bool_decide_eq_false_2 by (intros [? ?]; discriminate).
    reflexivity.
Qed.

(** The loader returns a config whenever the failures of the file are
    ordinary exceptions: nothing reaches the caller. *)
Lemma load_server_config_returns (F : gmap string file) (L : list log_record) :
  (forall f e, F !! config_path = Some f ->
               open_error f = Some e \/ read_error f = Some e ->
               is_Exception e = true) ->
  exists c, fst (load_server_config (World F L)) = Returns c.
Proof.
  intros Hexc. rewrite load_server_config_eq.
  destruct (F !! config_path) as [f|] eqn:HF; [|eauto].
  destruct (open_error f) as [e|] eqn:Ho.
  - rewrite (Hexc f e eq_refl (or_introl Ho)). eauto.
  - destruct (read_error f) as [e|] eqn:Hr; [|eauto].
    rewrite (Hexc f e eq_refl (or_intror Hr)). eauto.
Qed.

(** A file that cannot be opened leaves the defaults. *)
Lemma load_open_failure (F : gmap string file) (L : list log_record)
    (f : file) (e : exn) :
  F !! config_path = Some f -> open_error f = Some e ->
  is_Exception e = true ->
  load_server_config (World F L) =
  (Returns default_config, World F (L ++ [error_record e])).
Proof.
  intros HF Ho He. now rewrite load_server_config_eq, HF, Ho, He.
Qed.

(** The loader never changes the directory entries. *)
Lemma load_server_config_fs (w : world) :
  fs (snd (load_server_config w)) = fs w.
Proof.
  destruct w as [F L]. rewrite load_server_config_eq.
  destruct (F !! config_path) as [f|]; [|reflexivity].
  destruct (open_error f) as [e|].
  - destruct (is_Exception e); reflexivity.
  - destruct (read_error f) as [e|]; [|reflexivity].
    destruct (is_Exception e); reflexivity.
Qed.

(** What the loader returns does not depend on the log. *)
Lemma load_server_config_log (F : gmap string file) (L L' : list log_record) :
  fst (load_server_config (World F L)) = fst (load_server_config (World F L')).
Proof.
  rewrite !load_server_config_eq.
  destruct (F !! config_path) as [f|]; [|reflexivity].
  destruct (open_error f) as [e|].
  - destruct (is_Exception e); reflexivity.
  - destruct (read_error f) as [e|]; [|reflexivity].
    destruct (is_Exception e); reflexivity.
Qed.

Lemma after_line_first_colon (line key rest : string)
    (c : gmap string string) :
  strip line = key +:+ ":" +:+ rest ->
  str_in ":" key = false ->
  after_line c line = if recognized key then <[key := strip rest]> c else c.
Proof.
  intros Hline Hkey.
  pose proof (process_line_first_colon line key rest c (World ∅ []) Hline Hkey)
    as H.
  rewrite process_line_eq in H. now injection H.
Qed.

Lemma default_backend_ip : default_config !! "backend_ip" = Some "192.168.1.1".
Proof. unfold default_config. apply lookup_insert_eq. Qed.

(** The sample files, loaded. *)
Lemma parsed_only_backend_ip :
  parsed only_backend_ip = <["backend_ip" := "10.0.0.5"]> default_config.
Proof.
  unfold parsed, only_backend_ip. cbn [file_lines foldl].
  rewrite (after_line_first_colon _ "backend_ip" " 10.0.0.5")
    by reflexivity.
  reflexivity.
Qed.

Lemma parsed_undecodable_tail :
  parsed undecodable_tail = <["backend_ip" := "10.0.0.5"]> default_config.
Proof. exact parsed_only_backend_ip. Qed.

Lemma parsed_spaced_key : parsed spaced_key = default_config.
Proof.
  unfold parsed, spaced_key. cbn [file_lines foldl].
  rewrite (after_line_first_colon _ "backend_ip " " 10.0.0.5")
    by reflexivity.
  reflexivity.
Qed.

Lemma load_sample (f : file) (L : list log_record) :
  open_error f = None ->
  load_server_config (World (fs_with f) L) =
  match read_error f with
  | None => (Returns (parsed f),
             World (fs_with f) (L ++ [info_record (parsed f)]))
  | Some e =>
      if is_Exception e
      then (Returns (parsed f), World (fs_with f) (L ++ [error_record e]))
      else (Raises e, World (fs_with f) L)
  end.
Proof.
  intros Ho. rewrite load_server_config_eq. unfold fs_with.
  rewrite lookup_insert_eq, Ho. reflexivity.
Qed.

(** C7: when no file exists at the configured path, the loader logs one
    warning and returns the default configuration, with backend_ip
    192.168.1.1, port 3107 and the token (key X-Auth-Token) default. *)
Theorem load_without_file (F : gmap string file) (L : list log_record) :
  F !! config_path = None ->
  load_server_config (World F L) =
  (Returns (<["backend_ip" := "192.168.1.1"]>
              (<["port" := "3107"]> (<["X-Auth-Token" := "default"]> ∅))),
   World F (L ++ [Log WARNING "Config file not found at %s, using default"
                      ["backendcfg.txt"]])).
Proof. intros HF. now rewrite load_server_config_eq, HF. Qed.

Lemma load_without_file_witness :
  (∅ : gmap string file) !! config_path = None /\
  load_server_config (World ∅ []) =
  (Returns (<["backend_ip" := "192.168.1.1"]>
              (<["port" := "3107"]> (<["X-Auth-Token" := "default"]> ∅))),
   World ∅ [Log WARNING "Config file not found at %s, using default"
                ["backendcfg.txt"]]).
Proof.
  split; [apply lookup_empty | apply (load_without_file ∅ []), lookup_empty].
Defined.

(** C9: loading is idempotent.  With the directory entries fixed, two
    loads in a row return the same outcome, and the first leaves the
    entries as they were (only the log grows). *)
Theorem load_server_config_idempotent (w : world) :
  fst (load_server_config (snd (load_server_config w))) =
  fst (load_server_config w)
  /\ fs (snd (load_server_config w)) = fs w.
Proof.
  split; [|apply load_server_config_fs].
  pose proof (load_server_config_fs w) as Hfs.
  destruct (snd (load_server_config w)) as [F' L'].
  destruct w as [F L]. cbn in Hfs. subst F'.
  apply load_server_config_log.
Qed.

(** C6, as the code has it: the loader applies every line read from the
    file, in order, to the dict that starts as the defaults.  A line is
    trimmed as a whole and split at its first colon; the key is the text
    before that colon and is compared as it stands, the value is the
    trimmed text after it; a recognized key is assigned, any other key and
    any line without a colon leave the config unchanged.  A file holding
    only the line backend_ip: 10.0.0.5 yields that address and the two
    other defaults. *)
Theorem config_line_assignment (F : gmap string file) (L : list log_record)
    (f : file) :
  F !! config_path = Some f ->
  open_error f = None ->
  (forall e, read_error f = Some e -> is_Exception e = true) ->
  fst (load_server_config (World F L)) =
  Returns (foldl after_line default_config (file_lines f))
  /\ (forall (c : gmap string string) (line key rest : string),
        strip line = key +:+ ":" +:+ rest ->
        str_in ":" key = false ->
        after_line c line =
        if bool_decide (key ∈ ["backend_ip"; "port"; "X-Auth-Token"])
        then <[key := strip rest]> c else c)
  /\ (forall (c : gmap string string) (line : string),
        str_in ":" line = false -> after_line c line = c)
  /\ fst (load_server_config (World (fs_with only_backend_ip) [])) =
     Returns (<["backend_ip" := "10.0.0.5"]>
                (<["port" := "3107"]> (<["X-Auth-Token" := "default"]> ∅))).
Proof.
  intros HF Ho Hr. split; [|split; [|split]].
  - rewrite load_server_config_eq, HF, Ho. unfold parsed.
    destruct (read_error f) as [e|]; [|reflexivity].
    now rewrite (Hr e eq_refl).
  - intros c line key rest Hline Hkey.
    exact (after_line_first_colon line key rest c Hline Hkey).
  - intros c line Hin. unfold after_line.
    now rewrite (process_line_no_colon line _ Hin).
  - rewrite load_sample by reflexivity. cbn [read_error only_backend_ip fst].
    now rewrite parsed_only_backend_ip.
Qed.

Lemma config_line_assignment_witness :
  fs_with two_settings !! config_path = Some two_settings
  /\ open_error two_settings = None
  /\ (forall e, read_error two_settings = Some e -> is_Exception e = true)
  /\ fst (load_server_config (World (fs_with two_settings) [])) =
     Returns (<["port" := "99"]> (<["backend_ip" := "10.0.0.5"]> default_config)).
Proof.
  assert (HF : fs_with two_settings !! config_path = Some two_settings)
    by apply lookup_insert_eq.
  assert (Hr : forall e, read_error two_settings = Some e ->
                         is_Exception e = true) by (intros e [=]).
  split; [exact HF | split; [reflexivity | split; [exact Hr|]]].
  destruct (config_line_assignment (fs_with two_settings) [] two_settings
              HF eq_refl Hr) as (Hload & Hline & _ & _).
  rewrite Hload. cbn [two_settings file_lines foldl].
  rewrite (Hline default_config ("backend_ip: 10.0.0.5" +:+ LF)
             "backend_ip" " 10.0.0.5" eq_refl eq_refl).
  rewrite (Hline _ ("port: 99" +:+ LF) "port" " 99" eq_refl eq_refl).
  reflexivity.
Defined.

(** C6, as stated, fails: in the line backend_ip : 10.0.0.5 the text
    before the first colon trims to a recognized key, yet the loop body
    compares it untrimmed and assigns nothing. *)
Lemma key_before_colon_not_trimmed : ~ trims_key_and_value.
Proof.
  intros H.
  specialize (H ("backend_ip : 10.0.0.5" +:+ LF) "backend_ip "
                (" 10.0.0.5" +:+ LF) default_config (World ∅ [])
                eq_refl eq_refl).
  rewrite process_line_eq in H.
  apply (f_equal (fun p : outcome unit * frame =>
                    config (snd p) !! "backend_ip")) in H.
  cbn [snd config] in H.
  rewrite (after_line_first_colon _ "backend_ip " " 10.0.0.5")
    in H by reflexivity.
  change (default_config !! "backend_ip"
          = <["backend_ip" := "10.0.0.5"]> default_config !! "backend_ip") in H.
  rewrite lookup_insert_eq, default_backend_ip in H. discriminate.
Qed.

(** C5, evaluated where it fails: a read that breaks off after the first
    line is caught and logged as using the default configuration, but the
    dict returned already carries the address of that first line. *)
Theorem load_after_failed_read :
  load_server_config (World (fs_with undecodable_tail) []) =
  (Returns (<["backend_ip" := "10.0.0.5"]> default_config),
   World (fs_with undecodable_tail)
     [Log ERROR "Error loading config file: %s, using default configuration"
          ["'utf-8' codec can't decode byte 0xff in position 0: invalid start byte"]])
  /\ <["backend_ip" := "10.0.0.5"]> default_config !! "backend_ip"
     <> default_config !! "backend_ip".
Proof.
  split.
  - rewrite load_sample by reflexivity.
    cbn [read_error undecodable_tail is_Exception exn_cls].
    now rewrite parsed_undecodable_tail.
  - rewrite lookup_insert_eq, default_backend_ip. discriminate.
Qed.

Lemma failure_not_always_defaults : ~ failure_gives_defaults.
Proof.
  intros H.
  assert (HF : fs_with undecodable_tail !! config_path = Some undecodable_tail)
    by apply lookup_insert_eq.
  specialize (H (fs_with undecodable_tail) [] undecodable_tail _
                HF (or_intror eq_refl) eq_refl).
  rewrite load_sample in H by reflexivity.
  cbn [read_error undecodable_tail is_Exception exn_cls fst] in H.
  rewrite parsed_undecodable_tail in H.
  apply (f_equal (fun o : outcome (gmap string string) =>
                    match o with
                    | Returns c => c !! "backend_ip"
                    | Raises _ => None
                    end)) in H.
  rewrite lookup_insert_eq, default_backend_ip in H. discriminate.
Qed.

End ConfigFacts.

(** ** Facts about the handler *)

Module HandlerFacts.
Import Handler.

Lemma append_empty_r (s : string) : s +:+ EmptyString = s.
Proof.
  induction s as [|c s IH]; [reflexivity|].
  change (String c (s +:+ EmptyString) = String c s). now rewrite IH.
Qed.

(** Substituting five texts into the template gives the five literal
    pieces of the f-string with the texts between them. *)
Lemma template_five (v1 v2 v3 v4 v5 : string) :
  substitute [("packet_size", v1); ("packet_rate", v2);
              ("protocol_type", v3); ("connection_state", v4);
              ("payload_pattern", v5)] prompt_template
  = String.concat EmptyString
      ["REQUEST CHECK: packet_size = "; v1; ", packet_rate = "; v2;
       ", protocol_type = "; v3; ", connection_state = "; v4;
       ", payload_pattern = "; v5 +:+ EmptyString].
Proof. lazy. reflexivity. Qed.

(** The compiled f-string agrees with the template of the specification,
    whatever the five values are. *)
Lemma aireq_refines_template (d : list (string * pyvalue)) :
  aireq_of (dict_get d "packet_size") (dict_get d "packet_rate")
           (dict_get d "protocol_type") (dict_get d "connection_state")
           (dict_get d "payload_pattern")
  = spec_prompt (PyDict d).
Proof.
  unfold spec_prompt, required_fields, field. cbn [map].
  rewrite template_five, append_empty_r. reflexivity.
Qed.

Lemma all_present_dict (d : list (string * pyvalue)) :
  all_present (PyDict d) =
  negb (negb (truthy (dict_get d "packet_size"))
        || negb (truthy (dict_get d "packet_rate"))
        || negb (truthy (dict_get d "protocol_type"))
        || negb (truthy (dict_get d "connection_state"))
        || negb (truthy (dict_get d "payload_pattern"))).
Proof.
  unfold all_present, required_fields, field. cbn [forallb].
  destruct (truthy (dict_get d "packet_size")),
    (truthy (dict_get d "packet_rate")),
    (truthy (dict_get d "protocol_type")),
    (truthy (dict_get d "connection_state")),
    (truthy (dict_get d "payload_pattern")); reflexivity.
Qed.

(** Only an object can have all five fields. *)
Lemma all_present_is_dict (data : pyvalue) :
  all_present data = true -> exists d, data = PyDict d.
Proof. destruct data; try discriminate. eauto. Qed.

Lemma incomplete_all_present (data : pyvalue) :
  incomplete data <-> all_present data = false.
Proof.
  unfold incomplete, all_present. split.
  - intros (k & Hk & Hf).
    destruct (forallb _ required_fields) eqn:Hall; [|reflexivity].
    rewrite forallb_forall in Hall.
    rewrite <- Hf. symmetry. apply Hall. now apply list_elem_of_In.
  - unfold required_fields. cbn [forallb]. intros Hall.
    destruct (truthy (field data "packet_size")) eqn:H1;
      [|exists "packet_size"; split; [set_solver | exact H1]].
    destruct (truthy (field data "packet_rate")) eqn:H2;
      [|exists "packet_rate"; split; [set_solver | exact H2]].
    destruct (truthy (field data "protocol_type")) eqn:H3;
      [|exists "protocol_type"; split; [set_solver | exact H3]].
    destruct (truthy (field data "connection_state")) eqn:H4;
      [|exists "connection_state"; split; [set_solver | exact H4]].
    destruct (truthy (field data "payload_pattern")) eqn:H5;
      [discriminate|exists "payload_pattern"; split; [set_solver | exact H5]].
Qed.

(** The handler on an object, in closed form. *)
Lemma handlePacket_dict (client : provider) (d : list (string * pyvalue))
    (t : calls) :
  handlePacket client (PyDict d) t =
  if all_present (PyDict d) then
    (match client model_name (spec_prompt (PyDict d)) with
     | Returns r =>
         Raises (Exn TypeError
                   ("object " +:+ type_name (text r)
                      +:+ " can't be used in 'await' expression"))
     | Raises e => Raises e
     end,
     t ++ [(model_name, spec_prompt (PyDict d))])
  else (Returns error_envelope, t).
Proof.
  rewrite all_present_dict, <- aireq_refines_template.
  unfold handlePacket, get_method.
  cbv beta iota zeta delta [bind ret].
  destruct (negb (truthy (dict_get d "packet_size"))
            || negb (truthy (dict_get d "packet_rate"))
            || negb (truthy (dict_get d "protocol_type"))
            || negb (truthy (dict_get d "connection_state"))
            || negb (truthy (dict_get d "payload_pattern"))); [reflexivity|].
  cbn [negb]. unfold handleAIRequest, generate_content, await, model_name.
  cbv beta iota zeta delta [bind ret raise].
  destruct (client _ _); reflexivity.
Qed.

(** On anything but an object the first [data.get] raises. *)
Lemma handlePacket_not_dict (client : provider) (data : pyvalue) (t : calls) :
  (forall d, data <> PyDict d) ->
  handlePacket client data t =
  (Raises (Exn AttributeError
             ("'" +:+ type_name data +:+ "' object has no attribute 'get'")),
   t).
Proof. intros H. destruct data; try reflexivity. now destruct (H d). Qed.

(** Whatever the handler returns, it is the error envelope. *)
Lemma handlePacket_returns_only_error (client : provider) (data : pyvalue)
    (t : calls) (resp : response) :
  fst (handlePacket client data t) = Returns resp -> resp = error_envelope.
Proof.
  destruct data;
    try (rewrite handlePacket_not_dict by discriminate; discriminate).
  rewrite handlePacket_dict. destruct (all_present (PyDict d)).
  - cbn. destruct (client _ _); discriminate.
  - cbn. now intros [= <-].
Qed.

(** The framework answers every request as long as the provider fails
    with ordinary exceptions only. *)
Lemma full_dispatch_request_returns (client : provider) (data : pyvalue)
    (t : calls) :
  (forall m c e, client m c = Raises e -> is_Exception e = true) ->
  exists r, fst (full_dispatch_request client data t) = Returns r
            /\ snd (full_dispatch_request client data t)
               = snd (handlePacket client data t).
Proof.
  intros Hexc. unfold full_dispatch_request, try_except.
  cbv beta iota zeta delta [bind ret].
  destruct (handlePacket client data t) as [[resp|e] t'] eqn:Hh; [eauto|].
  assert (He : is_Exception e = true).
  { destruct data;
      try (rewrite handlePacket_not_dict in Hh by discriminate;
           injection Hh as <- <-; reflexivity).
    rewrite handlePacket_dict in Hh.
    destruct (all_present (PyDict d)); [|discriminate].
    destruct (client model_name (spec_prompt (PyDict d))) eqn:Hc;
      injection Hh as <- <-; [reflexivity | eauto]. }
  rewrite He. eauto.
Qed.

Lemma serve_returns (client : provider) (requests : list pyvalue) (t : calls) :
  (forall m c e, client m c = Raises e -> is_Exception e = true) ->
  exists rs, fst (serve client requests t) = Returns rs
             /\ length rs = length requests.
Proof.
  intros Hexc. revert t.
  induction requests as [|data rest IH]; intros t; [now exists []|].
  cbn [serve]. unfold bind at 1.
  destruct (full_dispatch_request_returns client data t Hexc) as (r & Hr & _).
  destruct (full_dispatch_request client data t) as [o t'].
  cbn in Hr. subst o. unfold bind.
  destruct (IH t') as (rs & Hrs & Hlen).
  destruct (serve client rest t') as [o t'']. cbn in Hrs. subst o.
  exists (r :: rs). cbn. now rewrite Hlen.
Qed.

(** C1, for object bodies: when the body is a JSON object in which one of
    the five fields is missing or falsy, the handler returns the fixed
    error envelope and makes no call to the provider. *)
Theorem incomplete_object_rejected (client : provider)
    (d : list (string * pyvalue)) (t : calls) :
  incomplete (PyDict d) ->
  handlePacket client (PyDict d) t =
  (Returns
     (jsonify [("status", PyStr "error");
               ("message",
                PyStr "Error while handling request! Please check your request.")]),
   t).
Proof.
  intros H. apply incomplete_all_present in H.
  now rewrite handlePacket_dict, H.
Qed.

Lemma incomplete_object_rejected_witness :
  incomplete scenario_2 /\
  handlePacket steady_client scenario_2 [] =
  (Returns
     (jsonify [("status", PyStr "error");
               ("message",
                PyStr "Error while handling request! Please check your request.")]),
   []).
Proof.
  assert (H : incomplete scenario_2).
  { exists "connection_state". split; [|reflexivity].
    unfold required_fields. rewrite !elem_of_cons. tauto. }
  split; [exact H|].
  exact (incomplete_object_rejected steady_client _ [] H).
Defined.

(** C1, as stated, fails: the body [[]] is JSON and has none of the five
    fields, yet the handler raises AttributeError at the first [data.get]
    instead of returning the error envelope. *)
Lemma non_object_body_not_rejected : ~ rejects_every_incomplete_body.
Proof.
  intros H.
  assert (Hinc : incomplete (PyList [])).
  { exists "packet_size". split; [|reflexivity].
    unfold required_fields. rewrite !elem_of_cons. tauto. }
  specialize (H steady_client (PyList []) [] Hinc).
  cbv in H. discriminate.
Qed.

(** C2: when all five fields are present and truthy, the handler calls the
    provider exactly once, and the prompt it passes is the literal
    template with the five field values substituted. *)
Theorem prompt_passed_to_adapter (client : provider) (data : pyvalue)
    (t : calls) :
  all_present data = true ->
  snd (handlePacket client data t) =
  t ++ [("gemini-2.0-flash",
         substitute
           [("packet_size", py_format (field data "packet_size"));
            ("packet_rate", py_format (field data "packet_rate"));
            ("protocol_type", py_format (field data "protocol_type"));
            ("connection_state", py_format (field data "connection_state"));
            ("payload_pattern", py_format (field data "payload_pattern"))]
           "REQUEST CHECK: packet_size = {packet_size}, packet_rate = {packet_rate}, protocol_type = {protocol_type}, connection_state = {connection_state}, payload_pattern = {payload_pattern}")].
Proof.
  intros H. destruct (all_present_is_dict data H) as [d ->].
  rewrite handlePacket_dict, H. reflexivity.
Qed.

Lemma prompt_passed_to_adapter_witness :
  all_present scenario_1 = true /\
  snd (handlePacket steady_client scenario_1 []) =
  [("gemini-2.0-flash",
    "REQUEST CHECK: packet_size = 100, packet_rate = 5, protocol_type = TCP, connection_state = ESTABLISHED, payload_pattern = random")].
Proof.
  split; [reflexivity|].
  exact (prompt_passed_to_adapter steady_client scenario_1 [] eq_refl).
Defined.

(** C3, evaluated where it fails: on the first end-to-end scenario, with a
    provider that returns a completion, the handler calls the provider and
    then raises TypeError at the [await]; no envelope is returned. *)
Theorem completion_not_returned :
  handlePacket steady_client scenario_1 [] =
  (Raises (Exn TypeError "object str can't be used in 'await' expression"),
   [("gemini-2.0-flash",
     "REQUEST CHECK: packet_size = 100, packet_rate = 5, protocol_type = TCP, connection_state = ESTABLISHED, payload_pattern = random")])
  /\ fst (handlePacket steady_client scenario_1 [])
     <> Returns (success_envelope (PyStr "benign")).
Proof. split; [reflexivity | discriminate]. Qed.

Lemma completion_never_returned : ~ returns_completion.
Proof.
  intros H.
  specialize (H steady_client scenario_1 [] _ eq_refl eq_refl).
  discriminate.
Qed.

(** C4: when all five fields are present and truthy, the value awaited is
    the plain value returned by handleAIRequest, so the handler raises
    TypeError whenever the provider returns, and returns no response at
    all; whatever request comes in, a response that is returned is the
    error envelope, never a success envelope. *)
Theorem success_envelope_unreachable (client : provider) (data : pyvalue)
    (t : calls) :
  all_present data = true ->
  (forall r, client "gemini-2.0-flash" (spec_prompt data) = Returns r ->
             fst (handlePacket client data t) =
             Raises (Exn TypeError
                       ("object " +:+ type_name (text r)
                          +:+ " can't be used in 'await' expression")))
  /\ (forall resp, fst (handlePacket client data t) <> Returns resp)
  /\ (forall client' data' t' resp,
        fst (handlePacket client' data' t') = Returns resp ->
        resp = error_envelope).
Proof.
  intros H. destruct (all_present_is_dict data H) as [d ->].
  rewrite handlePacket_dict, H. unfold model_name. cbn [fst].
  split; [|split].
  - intros r ->. reflexivity.
  - intros resp. destruct (client _ _); discriminate.
  - intros client' data' t' resp. apply handlePacket_returns_only_error.
Qed.

Lemma success_envelope_unreachable_witness :
  all_present scenario_1 = true /\
  fst (handlePacket steady_client scenario_1 []) =
  Raises (Exn TypeError "object str can't be used in 'await' expression").
Proof.
  split; [reflexivity|].
  exact (proj1 (success_envelope_unreachable steady_client scenario_1 []
                  eq_refl)
               (GenerateResponse (PyStr "benign")) eq_refl).
Defined.

(** C8: when the request passes validation and the provider call raises,
    neither handleAIRequest nor handlePacket catches the error: the
    handler raises that same error after the one call.  The framework
    answers the request with status 500, and goes on to answer the
    requests that follow. *)
Theorem provider_error_propagates (client : provider) (data : pyvalue)
    (t : calls) (e : exn) :
  all_present data = true ->
  client "gemini-2.0-flash" (spec_prompt data) = Raises e ->
  handlePacket client data t =
  (Raises e, t ++ [("gemini-2.0-flash", spec_prompt data)])
  /\ (is_Exception e = true ->
      full_dispatch_request client data t =
      (Returns (Http 500 None), t ++ [("gemini-2.0-flash", spec_prompt data)]))
  /\ ((forall m c e', client m c = Raises e' -> is_Exception e' = true) ->
      forall rest, exists rs,
        fst (serve client (data :: rest) t) = Returns (Http 500 None :: rs)
        /\ length rs = length rest).
Proof.
  intros H Hc. destruct (all_present_is_dict data H) as [d ->].
  assert (Hh : handlePacket client (PyDict d) t =
               (Raises e, t ++ [("gemini-2.0-flash", spec_prompt (PyDict d))])).
  { rewrite handlePacket_dict, H. unfold model_name. now rewrite Hc. }
  assert (Hd : is_Exception e = true ->
               full_dispatch_request client (PyDict d) t =
               (Returns (Http 500 None),
                t ++ [("gemini-2.0-flash", spec_prompt (PyDict d))])).
  { intros He. unfold full_dispatch_request, try_except.
    cbv beta iota zeta delta [bind ret]. now rewrite Hh, He. }
  split; [exact Hh | split; [exact Hd|]].
  intros Hexc rest. cbn [serve]. unfold bind at 1.
  rewrite (Hd (Hexc _ _ _ Hc)). unfold bind.
  destruct (serve_returns client rest
              (t ++ [("gemini-2.0-flash", spec_prompt (PyDict d))]) Hexc)
    as (rs & Hrs & Hlen).
  destruct (serve client rest _) as [o t']. cbn in Hrs. subst o.
  exists rs. split; [reflexivity | exact Hlen].
Qed.

Lemma provider_error_propagates_witness :
  all_present scenario_1 = true /\
  failing_client "gemini-2.0-flash" (spec_prompt scenario_1)
  = Raises (Exn ProviderError "503 UNAVAILABLE") /\
  handlePacket failing_client scenario_1 [] =
  (Raises (Exn ProviderError "503 UNAVAILABLE"),
   [("gemini-2.0-flash",
     "REQUEST CHECK: packet_size = 100, packet_rate = 5, protocol_type = TCP, connection_state = ESTABLISHED, payload_pattern = random")]).
Proof.
  split; [reflexivity | split; [reflexivity|]].
  exact (proj1 (provider_error_propagates failing_client scenario_1 []
                  (Exn ProviderError "503 UNAVAILABLE") eq_refl eq_refl)).
Defined.

End HandlerFacts.

(** ** Facts about the module top level *)

Module BootstrapFacts.
Import Bootstrap.

Lemma all_binds_cons (n : nat) (s : stmt) (p : list (nat * stmt))
    (env : gset string) :
  env ∪ list_to_set (binds_of s) ∪ all_binds p = env ∪ all_binds ((n, s) :: p).
Proof.
  unfold all_binds, binds_list. cbn [map concat snd].
  rewrite list_to_set_app_L. now rewrite (assoc_L (∪)).
Qed.

Lemma all_binds_nil (env : gset string) : env ∪ all_binds [] = env.
Proof.
  unfold all_binds, binds_list. cbn [map concat list_to_set].
  apply (right_id_L ∅ (∪)).
Qed.

Lemma run_app (ext : nat -> option exn) (p1 p2 : list (nat * stmt))
    (env : gset string) :
  run ext env (p1 ++ p2) =
  match run ext env p1 with
  | Completed env' => run ext env' p2
  | Failed n e => Failed n e
  end.
Proof.
  revert env. induction p1 as [|[n s] p1 IH]; intros env; [reflexivity|].
  cbn [run app]. destruct (first_unbound env (loads_of s)); [reflexivity|].
  destruct (ext n); [reflexivity | apply IH].
Qed.

(** A run that completes has bound exactly the names of its statements. *)
Lemma run_completed (ext : nat -> option exn) (p : list (nat * stmt))
    (env env' : gset string) :
  run ext env p = Completed env' -> env' = env ∪ all_binds p.
Proof.
  revert env. induction p as [|[n s] p IH]; intros env.
  - cbn. intros [= <-]. now rewrite all_binds_nil.
  - cbn [run]. destruct (first_unbound env (loads_of s)); [discriminate|].
    destruct (ext n); [discriminate|]. intros H. apply IH in H. subst env'.
    apply all_binds_cons.
Qed.

(** A run fails at one of its own statements. *)
Lemma run_failed (ext : nat -> option exn) (p : list (nat * stmt))
    (env : gset string) (n : nat) (e : exn) :
  run ext env p = Failed n e -> exists s, (n, s) ∈ p.
Proof.
  revert env. induction p as [|[m s] p IH]; intros env; [discriminate|].
  cbn [run]. destruct (first_unbound env (loads_of s)).
  - intros [= <- <-]. exists s. left.
  - destruct (ext m).
    + intros [= <- <-]. exists s. left.
    + intros H. destruct (IH _ H) as [s' Hs']. exists s'. now right.
Qed.

Lemma first_unbound_head (env : gset string) (x : string) (rest : list string) :
  x ∉ env -> first_unbound env (x :: rest) = Some x.
Proof. intros H. cbn. now rewrite bool_decide_eq_false_2. Qed.

Lemma first_unbound_none (env : gset string) (names : list string) :
  (forall x, x ∈ names -> x ∈ env) -> first_unbound env names = None.
Proof.
  induction names as [|x names IH]; intros H; [reflexivity|].
  cbn. rewrite bool_decide_eq_true_2 by (apply H; left).
  apply IH. intros y Hy. apply H. now right.
Qed.

Lemma forallb_bound (bound names : list string) (env : gset string) :
  forallb (fun x => bool_decide (x ∈ bound)) names = true ->
  (forall x, x ∈ bound -> x ∈ env) ->
  forall x, x ∈ names -> x ∈ env.
Proof.
  intros Hall Hsub x Hx. rewrite forallb_forall in Hall.
  apply Hsub. apply list_elem_of_In, Hall in Hx.
  now apply bool_decide_eq_true in Hx.
Qed.

(** A statement whose first load is unbound raises the NameError. *)
Lemma run_name_error (ext : nat -> option exn) (env : gset string)
    (k : nat) (s : stmt) (post : list (nat * stmt))
    (x : string) (rest : list string) :
  loads_of s = x :: rest -> x ∉ env ->
  run ext env ((k, s) :: post) = Failed k (name_error x).
Proof.
  intros Hl Hx. cbn [run]. rewrite Hl.
  now rewrite (first_unbound_head env x rest Hx).
Qed.

(** A statement whose names are bound raises what the environment makes
    it raise. *)
Lemma run_external_failure (ext : nat -> option exn) (env : gset string)
    (k : nat) (s : stmt) (post : list (nat * stmt)) (e : exn) :
  (forall x, x ∈ loads_of s -> x ∈ env) -> ext k = Some e ->
  run ext env ((k, s) :: post) = Failed k e.
Proof.
  intros Hl He. cbn [run]. now rewrite (first_unbound_none _ _ Hl), He.
Qed.

(** Statements that pass the check and meet no failure from outside run
    through. *)
Lemma run_scoped (ext : nat -> option exn) (pre post : list (nat * stmt))
    (bound : list string) (env : gset string) :
  scoped bound pre = true ->
  (forall x, x ∈ bound -> x ∈ env) ->
  (forall n s, (n, s) ∈ pre -> ext n = None) ->
  run ext env (pre ++ post) = run ext (env ∪ all_binds pre) post.
Proof.
  revert bound env.
  induction pre as [|[n s] pre IH]; intros bound env Hsc Hsub Hq.
  - cbn [app]. now rewrite all_binds_nil.
  - cbn [scoped] in Hsc. apply andb_prop in Hsc as [Hloads Hrest].
    cbn [app run].
    rewrite (first_unbound_none _ _ (forallb_bound _ _ _ Hloads Hsub)).
    rewrite (Hq n s) by left.
    rewrite (IH (bound ++ binds_of s) _ Hrest).
    + now rewrite (all_binds_cons n).
    + intros x Hx. apply elem_of_app in Hx as [Hx|Hx].
      * apply elem_of_union_l, Hsub, Hx.
      * apply elem_of_union_r, elem_of_list_to_set, Hx.
    + intros m s' Hm. apply (Hq m s'). now right.
Qed.

(** A statement whose first load nothing before it binds stops every
    run, there or earlier. *)
Lemma run_blocked (ext : nat -> option exn) (env : gset string)
    (pre post : list (nat * stmt)) (k : nat) (s : stmt)
    (x : string) (rest : list string) :
  loads_of s = x :: rest -> x ∉ env ∪ all_binds pre ->
  (exists n e s', (n, s') ∈ pre
                  /\ run ext env (pre ++ (k, s) :: post) = Failed n e)
  \/ run ext env (pre ++ (k, s) :: post) = Failed k (name_error x).
Proof.
  intros Hl Hx. rewrite run_app.
  destruct (run ext env pre) as [env'|n e] eqn:Hrun.
  - right. apply run_completed in Hrun. subst env'.
    now apply (run_name_error ext _ k s post x rest).
  - left. destruct (run_failed _ _ _ _ _ Hrun) as [s' Hs']. eauto.
Qed.

Lemma not_in_names (x : string) (l1 l2 : list string) :
  bool_decide (x ∈ l1 ++ l2) = false ->
  x ∉ (list_to_set l1 : gset string) ∪ list_to_set l2.
Proof.
  intros H. apply bool_decide_eq_false in H.
  rewrite elem_of_union, !elem_of_list_to_set, <- elem_of_app. exact H.
Qed.

(** *** The statements of [server.py] *)

Lemma before_lt (k n : nat) (s : stmt) (p : list (nat * stmt)) :
  (n, s) ∈ before k p -> (n < k)%nat.
Proof. unfold before. rewrite list_elem_of_filter. now intros [H _]. Qed.

Lemma SocketIO_unbound :
  "SocketIO" ∉ preset_names ∪ all_binds (before 50 server_py).
Proof. apply not_in_names. vm_compute. reflexivity. Qed.

Lemma scoped_before_50 : scoped preset_list (before 50 server_py) = true.
Proof. vm_compute. reflexivity. Qed.

Lemma preset_sub (x : string) : x ∈ preset_list -> x ∈ preset_names.
Proof. apply elem_of_list_to_set. Qed.

Lemma import_fails_by_line_50 (ext : nat -> option exn) :
  (exists n e, (n < 50)%nat /\ import_module ext = Failed n e)
  \/ import_module ext = Failed 50 (name_error "SocketIO").
Proof.
  destruct (run_blocked ext preset_names (before 50 server_py)
              (from 51 server_py) 50 line_50 "SocketIO" ["app"]
              eq_refl SocketIO_unbound) as [(n & e & s' & Hs' & H)|H].
  - left. exists n, e. split; [exact (before_lt _ _ _ _ Hs') | exact H].
  - right. exact H.
Qed.

Lemma import_healthy_prefix (ext : nat -> option exn) :
  (forall n, (n < 50)%nat -> ext n = None) ->
  import_module ext = Failed 50 (name_error "SocketIO").
Proof.
  intros Hq.
  change (run ext preset_names
            (before 50 server_py ++ (50%nat, line_50) :: from 51 server_py)
          = Failed 50 (name_error "SocketIO")).
  rewrite (run_scoped ext _ _ preset_list preset_names scoped_before_50
             preset_sub).
  - exact (run_name_error ext _ 50 line_50 _ "SocketIO" ["app"] eq_refl
             SocketIO_unbound).
  - intros n s Hn. apply Hq. exact (before_lt _ _ _ _ Hn).
Qed.

Lemma import_without_log_directory :
  import_module no_log_directory =
  Failed 12 (Exn FileNotFoundError
               "No such file or directory: 'data/log/server.log'").
Proof.
  change (run no_log_directory preset_names
            (before 12 server_py ++ (12%nat, line_12) :: from 13 server_py)
          = Failed 12 (Exn FileNotFoundError
                         "No such file or directory: 'data/log/server.log'")).
  assert (Hsc : scoped preset_list (before 12 server_py) = true)
    by (vm_compute; reflexivity).
  assert (Hl : forallb (fun x => bool_decide
                          (x ∈ preset_list ++ binds_list (before 12 server_py)))
                 (loads_of line_12) = true)
    by (vm_compute; reflexivity).
  rewrite (run_scoped no_log_directory _ _ preset_list preset_names Hsc
             preset_sub).
  - apply run_external_failure; [|reflexivity].
    apply (forallb_bound _ _ _ Hl). intros x Hx.
    apply elem_of_app in Hx as [Hx|Hx].
    + apply elem_of_union_l, preset_sub, Hx.
    + apply elem_of_union_r, elem_of_list_to_set, Hx.
  - intros n s Hn. apply before_lt in Hn. unfold no_log_directory.
    destruct (Nat.eqb_spec n 12); [lia | reflexivity].
Qed.

Lemma import_without_line_50 :
  run healthy preset_names (filter (fun p => fst p ≠ 50%nat) server_py)
  = Failed 53 (name_error "datetime").
Proof.
  change (run healthy preset_names
            (filter (fun p => fst p ≠ 50%nat) (before 53 server_py)
               ++ (53%nat, line_53) :: from 54 server_py)
          = Failed 53 (name_error "datetime")).
  assert (Hsc : scoped preset_list
                  (filter (fun p => fst p ≠ 50%nat) (before 53 server_py))
                = true)
    by (vm_compute; reflexivity).
  rewrite (run_scoped healthy _ _ preset_list preset_names Hsc preset_sub)
    by reflexivity.
  apply (run_name_error healthy _ 53 line_53 _ "datetime" ["timezone"] eq_refl).
  apply not_in_names. vm_compute. reflexivity.
Qed.

(** C10, as the code has it: the module top level never runs to
    completion, so the application is never ready to be served.  Every
    start ends in an exception at line 50 or before; when nothing fails
    from outside before line 50, that exception is the NameError for
    SocketIO.  Neither SocketIO nor datetime is imported, bound or built
    in, and with line 50 taken out line 53 would raise the NameError for
    datetime. *)
Theorem import_never_completes (ext : nat -> option exn) :
  (exists n e, (n <= 50)%nat /\ import_module ext = Failed n e)
  /\ ((forall n, (n < 50)%nat -> ext n = None) ->
      import_module ext = Failed 50 (name_error "SocketIO"))
  /\ ("SocketIO" ∉ preset_names ∪ all_binds server_py)
  /\ ("datetime" ∉ preset_names ∪ all_binds server_py)
  /\ run healthy preset_names (filter (fun p => fst p ≠ 50%nat) server_py)
     = Failed 53 (name_error "datetime").
Proof.
  split; [|split; [|split; [|split]]].
  - destruct (import_fails_by_line_50 ext) as [(n & e & Hn & H)|H].
    + exists n, e. split; [lia | exact H].
    + exists 50%nat, (name_error "SocketIO"). split; [lia | exact H].
  - apply import_healthy_prefix.
  - apply not_in_names. vm_compute. reflexivity.
  - apply not_in_names. vm_compute. reflexivity.
  - apply import_without_line_50.
Qed.

Lemma import_never_completes_witness :
  (forall n, (n < 50)%nat -> healthy n = None) /\
  import_module healthy = Failed 50 (name_error "SocketIO").
Proof.
  assert (H : forall n, (n < 50)%nat -> healthy n = None) by reflexivity.
  split; [exact H|].
  exact (proj1 (proj2 (import_never_completes healthy)) H).
Defined.

(** C10, as stated, fails: started where the directory data/log does not
    exist, the module raises FileNotFoundError at the logging setup, before
    line 50 is reached; that start does not end in a NameError. *)
Lemma missing_log_directory_not_name_error : ~ always_name_error.
Proof.
  intros H. destruct (H no_log_directory) as (n & x & Hn).
  rewrite import_without_log_directory in Hn. discriminate.
Qed.

End BootstrapFacts.

(** ** Further properties of the string primitives *)

Section SplitRoundTrip.

Variable ch : ascii.

(** What [find_sep] returns puts the text back together, and the part
    before the separator holds no separator. *)
Lemma find_sep_spec (s a b : string) :
  find_sep (String ch EmptyString) s = Some (a, b) ->
  s = a +:+ String ch EmptyString +:+ b
  /\ str_in (String ch EmptyString) a = false.
Proof.
  revert a b. induction s as [|c s IH]; intros a b; [discriminate|].
  rewrite find_sep_cons. destruct (Ascii.eqb_spec ch c) as [->|Hne].
  - intros [= <- <-]. split; reflexivity.
  - destruct (find_sep (String ch EmptyString) s) as [[a' b']|];
      [|discriminate].
    intros [= <- <-]. destruct (IH a' b' eq_refl) as [-> Hin]. split.
    + reflexivity.
    + rewrite str_in_cons, Hin.
      destruct (Ascii.eqb_spec ch c); [contradiction | reflexivity].
Qed.

End SplitRoundTrip.

Section Strip.

Lemma lstrip_head (c : ascii) (s : string) :
  isspace c = false -> lstrip (String c s) = String c s.
Proof. intros H. cbn. now rewrite H. Qed.

Lemma lstrip_shape (s : string) :
  lstrip s = EmptyString
  \/ exists c t, lstrip s = String c t /\ isspace c = false.
Proof.
  induction s as [|c s IH]; [now left|].
  cbn. destruct (isspace c) eqn:Hc; [exact IH | right; eauto].
Qed.

Lemma rstrip_cons_keep (c : ascii) (s : string) :
  isspace c = false ->
  exists t, rstrip (String c s) = String c t.
Proof.
  intros Hc. cbn. destruct (rstrip s); [rewrite Hc|]; eauto.
Qed.

Lemma rstrip_cons (c : ascii) (s : string) :
  rstrip (String c s) =
  match rstrip s with
  | EmptyString => if isspace c then EmptyString else String c EmptyString
  | String a t => String c (String a t)
  end.
Proof. reflexivity. Qed.

Lemma rstrip_idem (s : string) : rstrip (rstrip s) = rstrip s.
Proof.
  induction s as [|c s IH]; [reflexivity|].
  rewrite (rstrip_cons c s).
  destruct (rstrip s) as [|c' r] eqn:Hr.
  - destruct (isspace c) eqn:Hc; [reflexivity|].
    rewrite rstrip_cons. cbn [rstrip]. now rewrite Hc.
  - rewrite (rstrip_cons c (String c' r)). now rewrite IH.
Qed.

(** Trimming twice is trimming once. *)
Lemma strip_idem (s : string) : strip (strip s) = strip s.
Proof.
  unfold strip. destruct (lstrip_shape s) as [->|(c & t & -> & Hc)];
    [reflexivity|].
  destruct (rstrip_cons_keep c t Hc) as [t' Ht]. rewrite Ht.
  rewrite (lstrip_head c t' Hc), <- Ht. apply rstrip_idem.
Qed.

End Strip.

Lemma append_assoc (a b c : string) : (a +:+ b) +:+ c = a +:+ b +:+ c.
Proof.
  induction a as [|x a IH]; [reflexivity|].
  change (String x ((a +:+ b) +:+ c) = String x (a +:+ b +:+ c)).
  now rewrite IH.
Qed.

Section TextLines.
Import More.

Lemma text_lines_LF (t : string) :
  exists l ls, text_lines (t +:+ LF) = l :: ls.
Proof.
  induction t as [|c t IH]; [cbn; eauto|].
  change (exists l ls, text_lines (String c (t +:+ LF)) = l :: ls).
  cbn [text_lines]. destruct (Ascii.eqb c (ascii_of_nat 10)); [eauto|].
  destruct IH as (l & ls & ->). eauto.
Qed.

(** After a line terminator the lines of what follows are delivered on
    their own. *)
Lemma text_lines_app (t b : string) :
  text_lines (t +:+ LF +:+ b) = text_lines (t +:+ LF) ++ text_lines b.
Proof.
  induction t as [|c t IH]; [reflexivity|].
  change (text_lines (String c (t +:+ LF +:+ b))
          = text_lines (String c (t +:+ LF)) ++ text_lines b).
  cbn [text_lines]. destruct (Ascii.eqb c (ascii_of_nat 10)).
  - now rewrite IH.
  - rewrite IH. destruct (text_lines_LF t) as (l & ls & ->). reflexivity.
Qed.

End TextLines.

(** ** Further properties of the loader *)

Module LoaderProperties.
Import Config ConfigFacts LogFormat More.

(** The loop body either leaves the dict alone or assigns a trimmed value
    to a recognized key. *)
Lemma after_line_cases (c : gmap string string) (line : string) :
  after_line c line = c
  \/ exists k v, k ∈ recognized_keys /\ strip v = v
                 /\ after_line c line = <[k := v]> c.
Proof.
  unfold after_line, process_line.
  destruct (str_in ":" line) eqn:Hin; [|now left].
  destruct (split_strip_two line Hin) as (key & value & ->).
  cbn [unpack2 bind ret]. unfold recognized_keys.
  destruct (String.eqb_spec key "backend_ip") as [->|_].
  { right. exists "backend_ip", (strip value).
    split; [left | split; [apply strip_idem | reflexivity]]. }
  destruct (String.eqb_spec key "port") as [->|_].
  { right. exists "port", (strip value).
    split; [right; left | split; [apply strip_idem | reflexivity]]. }
  destruct (String.eqb_spec key "X-Auth-Token") as [->|_].
  { right. exists "X-Auth-Token", (strip value).
    split; [right; right; left | split; [apply strip_idem | reflexivity]]. }
  now left.
Qed.

Lemma default_exact_keys : exact_keys default_config.
Proof.
  intros k. unfold default_config, recognized_keys.
  rewrite !lookup_insert_is_Some, lookup_empty, !elem_of_cons, elem_of_nil.
  split.
  - intros [->|[_ [->|[_ [->|[_ H]]]]]]; auto.
    now apply is_Some_None in H.
  - intros [->|[->|[->|[]]]]; [now left|..].
    + right. split; [discriminate | now left].
    + right. split; [discriminate|]. right. split; [discriminate | now left].
Qed.

Lemma default_trimmed : trimmed_values default_config.
Proof.
  intros k v. unfold default_config.
  rewrite !lookup_insert_Some, lookup_empty.
  intros [[_ <-]|[_ [[_ <-]|[_ [[_ <-]|[_ H]]]]]];
    try reflexivity; discriminate.
Qed.

Lemma after_line_exact_keys (c : gmap string string) (line : string) :
  exact_keys c -> exact_keys (after_line c line).
Proof.
  intros Hc. destruct (after_line_cases c line) as [->|(k & v & Hk & _ & ->)];
    [exact Hc|].
  intros j. rewrite lookup_insert_is_Some. split.
  - intros [<-|[_ H]]; [exact Hk | now apply Hc].
  - intros Hj. destruct (decide (k = j)) as [->|Hne]; [now left|].
    right. split; [exact Hne | now apply Hc].
Qed.

Lemma after_line_trimmed (c : gmap string string) (line : string) :
  trimmed_values c -> trimmed_values (after_line c line).
Proof.
  intros Hc. destruct (after_line_cases c line) as [->|(k & v & _ & Hv & ->)];
    [exact Hc|].
  intros j w. rewrite lookup_insert_Some.
  intros [[_ <-]|[_ H]]; [exact Hv | exact (Hc j w H)].
Qed.

Lemma parsed_invariants (f : file) :
  exact_keys (parsed f) /\ trimmed_values (parsed f).
Proof.
  unfold parsed.
  generalize default_exact_keys default_trimmed.
  generalize default_config.
  induction (file_lines f) as [|l ls IH]; intros c Hk Ht; [now split|].
  cbn [foldl]. apply IH; [now apply after_line_exact_keys
                         | now apply after_line_trimmed].
Qed.

(** Whatever the loader returns is the default dict or the dict read from
    the file. *)
Lemma load_result_cases (F : gmap string file) (L : list log_record)
    (c : gmap string string) :
  fst (load_server_config (World F L)) = Returns c ->
  c = default_config \/ exists f, F !! config_path = Some f /\ c = parsed f.
Proof.
  rewrite load_server_config_eq.
  destruct (F !! config_path) as [f|]; [|intros [= <-]; now left].
  destruct (open_error f) as [e|].
  - destruct (is_Exception e); [intros [= <-]; now left | discriminate].
  - destruct (read_error f) as [e|].
    + destruct (is_Exception e); [|discriminate].
      intros [= <-]. right. eauto.
    + intros [= <-]. right. eauto.
Qed.

(** The dict the loader returns has the three keys and no other, whatever
    the file holds. *)
Theorem loaded_config_has_exactly_three_keys (w : world)
    (c : gmap string string) :
  fst (load_server_config w) = Returns c ->
  forall k, is_Some (c !! k) <-> k ∈ ["backend_ip"; "port"; "X-Auth-Token"].
Proof.
  destruct w as [F L]. intros H.
  destruct (load_result_cases F L c H) as [->|(f & _ & ->)].
  - apply default_exact_keys.
  - apply (parsed_invariants f).
Qed.

Lemma loaded_config_has_exactly_three_keys_witness :
  fst (load_server_config (World (fs_with only_backend_ip) []))
  = Returns (parsed only_backend_ip)
  /\ forall k, is_Some (parsed only_backend_ip !! k)
               <-> k ∈ ["backend_ip"; "port"; "X-Auth-Token"].
Proof.
  assert (H : fst (load_server_config (World (fs_with only_backend_ip) []))
              = Returns (parsed only_backend_ip))
    by now rewrite load_sample.
  split; [exact H|].
  exact (loaded_config_has_exactly_three_keys _ _ H).
Defined.

(** No value of the dict the loader returns has whitespace at either
    end. *)
Theorem loaded_values_are_trimmed (w : world) (c : gmap string string)
    (k v : string) :
  fst (load_server_config w) = Returns c ->
  c !! k = Some v ->
  strip v = v.
Proof.
  destruct w as [F L]. intros H.
  destruct (load_result_cases F L c H) as [->|(f & _ & ->)].
  - apply default_trimmed.
  - apply (parsed_invariants f).
Qed.

Lemma loaded_values_are_trimmed_witness :
  fst (load_server_config (World (fs_with padded_port) []))
  = Returns (<["port" := "8080"]> default_config)
  /\ <["port" := "8080"]> default_config !! "port" = Some "8080"
  /\ strip "8080" = "8080".
Proof.
  assert (H : fst (load_server_config (World (fs_with padded_port) []))
              = Returns (<["port" := "8080"]> default_config)).
  { rewrite load_sample by reflexivity. cbn [read_error padded_port fst].
    unfold parsed, padded_port. cbn [file_lines foldl].
    rewrite (after_line_first_colon _ "port" "   8080") by reflexivity.
    reflexivity. }
  assert (Hv : <["port" := "8080"]> default_config !! "port" = Some "8080")
    by apply lookup_insert_eq.
  split; [exact H | split; [exact Hv|]].
  exact (loaded_values_are_trimmed _ _ _ _ H Hv).
Defined.

(** An ordinary exception raised by [open] or while reading never reaches
    the caller: the loader returns a dict. *)
Theorem load_never_propagates_exception (F : gmap string file)
    (L : list log_record) :
  (forall f e, F !! config_path = Some f ->
               open_error f = Some e \/ read_error f = Some e ->
               is_Exception e = true) ->
  exists c w', load_server_config (World F L) = (Returns c, w').
Proof.
  intros H. destruct (load_server_config_returns F L H) as [c Hc].
  destruct (load_server_config (World F L)) as [o w'].
  cbn in Hc. subst o. eauto.
Qed.

Lemma load_never_propagates_exception_witness :
  (forall f e, fs_with unreadable !! config_path = Some f ->
               open_error f = Some e \/ read_error f = Some e ->
               is_Exception e = true)
  /\ exists c w', load_server_config (World (fs_with unreadable) [])
                  = (Returns c, w').
Proof.
  assert (H : forall f e, fs_with unreadable !! config_path = Some f ->
                          open_error f = Some e \/ read_error f = Some e ->
                          is_Exception e = true).
  { intros f e Hf. unfold fs_with in Hf. rewrite lookup_insert_eq in Hf.
    injection Hf as <-. intros [[= <-]|[=]]. reflexivity. }
  split; [exact H|].
  exact (load_never_propagates_exception _ [] H).
Defined.

(** An exception that does not derive from [Exception], such as
    KeyboardInterrupt, passes through the [except] clause: the loader
    raises it and logs nothing. *)
Theorem load_propagates_base_exception (F : gmap string file)
    (L : list log_record) (f : file) (e : exn) :
  F !! config_path = Some f ->
  open_error f = Some e \/ (open_error f = None /\ read_error f = Some e) ->
  is_Exception e = false ->
  load_server_config (World F L) = (Raises e, World F L).
Proof.
  intros HF Herr He. rewrite load_server_config_eq, HF.
  destruct Herr as [-> | [-> ->]]; now rewrite He.
Qed.

Lemma load_propagates_base_exception_witness :
  fs_with interrupted !! config_path = Some interrupted
  /\ load_server_config (World (fs_with interrupted) [])
     = (Raises (Exn KeyboardInterrupt EmptyString),
        World (fs_with interrupted) []).
Proof.
  assert (H : fs_with interrupted !! config_path = Some interrupted)
    by apply lookup_insert_eq.
  split; [exact H|].
  exact (load_propagates_base_exception _ [] interrupted _ H
           (or_intror (conj eq_refl eq_refl)) eq_refl).
Defined.

(** When [open] itself fails with an ordinary exception (a directory at
    the path, no permission), the loader returns the defaults and logs the
    error once. *)
Theorem load_unopenable_gives_defaults (F : gmap string file)
    (L : list log_record) (f : file) (e : exn) :
  F !! config_path = Some f ->
  open_error f = Some e ->
  is_Exception e = true ->
  load_server_config (World F L) =
  (Returns (<["backend_ip" := "192.168.1.1"]>
              (<["port" := "3107"]> (<["X-Auth-Token" := "default"]> ∅))),
   World F (L ++ [Log ERROR
                    "Error loading config file: %s, using default configuration"
                    [exn_msg e]])).
Proof. intros HF Ho He. exact (load_open_failure F L f e HF Ho He). Qed.

Lemma load_unopenable_gives_defaults_witness :
  fs_with unreadable !! config_path = Some unreadable
  /\ load_server_config (World (fs_with unreadable) []) =
     (Returns default_config,
      World (fs_with unreadable)
        [Log ERROR
           "Error loading config file: %s, using default configuration"
           ["Permission denied: 'backendcfg.txt'"]]).
Proof.
  assert (H : fs_with unreadable !! config_path = Some unreadable)
    by apply lookup_insert_eq.
  split; [exact H|].
  exact (load_unopenable_gives_defaults _ [] unreadable _ H eq_refl eq_refl).
Defined.

(** Every call that returns adds exactly one record to the log: a warning
    when there is no file, an error when opening or reading failed, an
    info otherwise. *)
Theorem load_logs_one_record (F : gmap string file) (L : list log_record)
    (c : gmap string string) (w' : world) :
  load_server_config (World F L) = (Returns c, w') ->
  exists r, log w' = L ++ [r]
            /\ log_level r =
               match F !! config_path with
               | None => WARNING
               | Some f =>
                   match open_error f, read_error f with
                   | None, None => INFO
                   | _, _ => ERROR
                   end
               end.
Proof.
  rewrite load_server_config_eq.
  destruct (F !! config_path) as [f|].
  - destruct (open_error f) as [e|].
    + destruct (is_Exception e); [|discriminate].
      intros [= <- <-]. eexists. split; reflexivity.
    + destruct (read_error f) as [e|].
      * destruct (is_Exception e); [|discriminate].
        intros [= <- <-]. eexists. split; reflexivity.
      * intros [= <- <-]. eexists. split; reflexivity.
  - intros [= <- <-]. eexists. split; reflexivity.
Qed.

Lemma load_logs_one_record_witness :
  exists r, log (snd (load_server_config (World ∅ []))) = [] ++ [r]
            /\ log_level r = WARNING.
Proof.
  assert (H : load_server_config (World ∅ [])
              = (Returns default_config, World ∅ ([] ++ [warning_record])))
    by now rewrite load_server_config_eq, lookup_empty.
  destruct (load_logs_one_record ∅ [] _ _ H) as (r & Hr & Hl).
  exists r. rewrite H. split; [exact Hr|].
  rewrite Hl, lookup_empty. reflexivity.
Defined.

Lemma load_readable (lines : list string) (L : list log_record) :
  fst (load_server_config (World (fs_with (readable lines)) L))
  = Returns (foldl after_line default_config lines).
Proof. now rewrite load_sample. Qed.

(** Line 33 cannot fail: for a line with a colon the trimmed line splits
    into exactly two parts, which put the trimmed line back together, and
    the first part holds no colon. *)
Theorem line_with_colon_unpacks (line : string) :
  str_in ":" line = true ->
  exists key value,
    split_1 ":" (strip line) = [key; value]
    /\ strip line = key +:+ ":" +:+ value
    /\ str_in ":" key = false
    /\ forall fr : frame,
         unpack2 (split_1 ":" (strip line)) fr = (Returns (key, value), fr).
Proof.
  intros H. destruct (split_strip_two line H) as (key & value & Hs).
  exists key, value. unfold split_1 in Hs.
  destruct (find_sep ":" (strip line)) as [[a b]|] eqn:Hf; [|discriminate].
  injection Hs as -> ->.
  destruct (find_sep_spec _ _ _ _ Hf) as [Heq Hin].
  unfold split_1. rewrite Hf. repeat split; assumption || reflexivity.
Qed.

Lemma line_with_colon_unpacks_witness :
  str_in ":" ("X-Auth-Token: a:b" +:+ LF) = true
  /\ exists key value,
       split_1 ":" (strip ("X-Auth-Token: a:b" +:+ LF)) = [key; value]
       /\ strip ("X-Auth-Token: a:b" +:+ LF) = key +:+ ":" +:+ value.
Proof.
  split; [reflexivity|].
  destruct (line_with_colon_unpacks ("X-Auth-Token: a:b" +:+ LF) eq_refl)
    as (key & value & H1 & H2 & _).
  exists key, value. split; assumption.
Defined.

Lemma text_lines_append_line (text line : string) :
  text = EmptyString \/ (exists t, text = t +:+ LF) ->
  text_lines line = [line] ->
  text_lines (text +:+ line) = text_lines text ++ [line].
Proof.
  intros [->|[t ->]] Hline.
  - cbn. exact Hline.
  - now rewrite append_assoc, text_lines_app, Hline.
Qed.

(** Appending one line [key:value] with a recognized key to the text of a
    file that is empty or ends with a line terminator changes what is
    loaded by exactly that assignment: the later line wins over any
    earlier line for the same key, and the other keys stay as they
    were. *)
Theorem appended_line_overrides (text line key rest : string)
    (L L' : list log_record) :
  text = EmptyString \/ (exists t, text = t +:+ LF) ->
  text_lines line = [line] ->
  strip line = key +:+ ":" +:+ rest ->
  str_in ":" key = false ->
  key ∈ ["backend_ip"; "port"; "X-Auth-Token"] ->
  exists c,
    fst (load_server_config (World (fs_with (readable (text_lines text))) L))
    = Returns c
    /\ fst (load_server_config
              (World (fs_with (readable (text_lines (text +:+ line)))) L'))
       = Returns (<[key := strip rest]> c).
Proof.
  intros Htext Hone Hline Hkey Hrec.
  exists (foldl after_line default_config (text_lines text)).
  rewrite !load_readable. split; [reflexivity|].
  rewrite (text_lines_append_line text line Htext Hone), foldl_app.
  cbn [foldl]. rewrite (after_line_first_colon _ _ _ _ Hline Hkey).
  unfold recognized. now rewrite bool_decide_eq_true_2.
Qed.

Lemma appended_line_overrides_witness :
  (exists t, "port: 1" +:+ LF = t +:+ LF)
  /\ text_lines ("port: 2" +:+ LF) = ["port: 2" +:+ LF]
  /\ exists c,
       fst (load_server_config
              (World (fs_with (readable (text_lines ("port: 1" +:+ LF)))) []))
       = Returns c
       /\ fst (load_server_config
                 (World (fs_with (readable
                                    (text_lines (("port: 1" +:+ LF)
                                                   +:+ "port: 2" +:+ LF)))) []))
          = Returns (<["port" := "2"]> c).
Proof.
  assert (Ht : exists t, "port: 1" +:+ LF = t +:+ LF) by (exists "port: 1"; reflexivity).
  split; [exact Ht | split; [reflexivity|]].
  apply (appended_line_overrides ("port: 1" +:+ LF) ("port: 2" +:+ LF)
           "port" " 2" [] [] (or_intror Ht)); [reflexivity..|].
  right. left.
Defined.

Lemma after_line_not_assigning (c : gmap string string) (line : string) :
  assigns line = false -> after_line c line = c.
Proof.
  unfold assigns, after_line, process_line, split_1.
  destruct (str_in ":" line) eqn:Hin; [|reflexivity].
  destruct (split_strip_two line Hin) as (key & value & Hs).
  unfold split_1 in Hs.
  destruct (find_sep ":" (strip line)) as [[a b]|]; [|discriminate].
  injection Hs as -> ->. cbn [andb unpack2 bind ret]. unfold recognized.
  intros Hrec. apply bool_decide_eq_false in Hrec.
  rewrite !elem_of_cons, elem_of_nil in Hrec.
  destruct (String.eqb_spec key "backend_ip"); [tauto|].
  destruct (String.eqb_spec key "port"); [tauto|].
  destruct (String.eqb_spec key "X-Auth-Token"); [tauto|].
  reflexivity.
Qed.

Lemma foldl_after_line_filter (lines : list string) (c : gmap string string) :
  foldl after_line c (List.filter assigns lines) = foldl after_line c lines.
Proof.
  revert c. induction lines as [|l lines IH]; intros c; [reflexivity|].
  cbn [List.filter foldl]. destruct (assigns l) eqn:Hl.
  - cbn [foldl]. apply IH.
  - rewrite (after_line_not_assigning c l Hl). apply IH.
Qed.

(** Lines that assign nothing (blank lines, comments, text without a
    colon, keys that are not recognized) can be taken out of a file
    without changing what is loaded. *)
Theorem other_lines_do_not_matter (lines : list string)
    (L L' : list log_record) :
  fst (load_server_config
         (World (fs_with (readable (List.filter assigns lines))) L))
  = fst (load_server_config (World (fs_with (readable lines)) L')).
Proof. rewrite !load_readable. now rewrite foldl_after_line_filter. Qed.

(** A read that fails with an ordinary exception after some lines were
    delivered gives the same config as a file made of just those lines:
    the lines read before the failure stay applied. *)
Theorem failed_read_keeps_lines_read (F : gmap string file)
    (L L' : list log_record) (f : file) (e : exn) :
  F !! config_path = Some f ->
  open_error f = None ->
  read_error f = Some e ->
  is_Exception e = true ->
  fst (load_server_config (World F L))
  = fst (load_server_config (World (fs_with (readable (file_lines f))) L'))
  /\ log (snd (load_server_config (World F L)))
     = L ++ [Log ERROR
               "Error loading config file: %s, using default configuration"
               [exn_msg e]].
Proof.
  intros HF Ho Hr He. rewrite load_readable.
  rewrite load_server_config_eq, HF, Ho, Hr, He. split; reflexivity.
Qed.

Lemma failed_read_keeps_lines_read_witness :
  fs_with undecodable_tail !! config_path = Some undecodable_tail
  /\ fst (load_server_config (World (fs_with undecodable_tail) []))
     = fst (load_server_config
              (World (fs_with (readable (file_lines undecodable_tail))) [])).
Proof.
  assert (H : fs_with undecodable_tail !! config_path = Some undecodable_tail)
    by apply lookup_insert_eq.
  split; [exact H|].
  exact (proj1 (failed_read_keeps_lines_read _ [] [] undecodable_tail _ H
                  eq_refl eq_refl eq_refl)).
Defined.

Lemma after_line_other_key (c : gmap string string) (line k : string) :
  line_key line <> Some k -> after_line c line !! k = c !! k.
Proof.
  unfold line_key, after_line, process_line, split_1.
  destruct (str_in ":" line) eqn:Hin; [|reflexivity].
  destruct (split_strip_two line Hin) as (key & value & Hs).
  unfold split_1 in Hs.
  destruct (find_sep ":" (strip line)) as [[a b]|]; [|discriminate].
  injection Hs as -> ->. cbn [unpack2 bind ret]. intros Hk.
  assert (Hne : key <> k) by congruence.
  destruct (String.eqb_spec key "backend_ip") as [<-|_];
    [cbn; now rewrite lookup_insert_ne|].
  destruct (String.eqb_spec key "port") as [<-|_];
    [cbn; now rewrite lookup_insert_ne|].
  destruct (String.eqb_spec key "X-Auth-Token") as [<-|_];
    [cbn; now rewrite lookup_insert_ne|].
  reflexivity.
Qed.

(** A key that no line of the file names keeps its default. *)
Theorem unnamed_key_keeps_default (lines : list string) (k : string)
    (L : list log_record) :
  (forall line, line ∈ lines -> line_key line <> Some k) ->
  exists c,
    fst (load_server_config (World (fs_with (readable lines)) L)) = Returns c
    /\ c !! k = default_config !! k.
Proof.
  intros H. exists (foldl after_line default_config lines).
  split; [apply load_readable|].
  revert H. generalize default_config.
  induction lines as [|l lines IH]; intros c H; [reflexivity|].
  cbn [foldl]. rewrite IH.
  - apply after_line_other_key, H. left.
  - intros line Hl. apply H. now right.
Qed.

Lemma unnamed_key_keeps_default_witness :
  (forall line, line ∈ ["backend_ip: 10.0.0.5" +:+ LF] ->
                line_key line <> Some "port")
  /\ exists c,
       fst (load_server_config
              (World (fs_with (readable ["backend_ip: 10.0.0.5" +:+ LF])) []))
       = Returns c
       /\ c !! "port" = default_config !! "port".
Proof.
  assert (H : forall line, line ∈ ["backend_ip: 10.0.0.5" +:+ LF] ->
                           line_key line <> Some "port").
  { intros line Hl. apply list_elem_of_singleton in Hl. subst line.
    discriminate. }
  split; [exact H|].
  exact (unnamed_key_keeps_default _ "port" [] H).
Defined.

(** On a load that reads the file to its end, the record logged cannot be
    rendered: its format has [%d] for the port, and the port is a str, so
    [msg % args] raises TypeError, whatever the file holds. *)
Theorem loaded_message_does_not_format (F : gmap string file)
    (L : list log_record) (f : file) :
  F !! config_path = Some f ->
  open_error f = None ->
  read_error f = None ->
  exists r msg,
    log (snd (load_server_config (World F L))) = L ++ [r]
    /\ log_level r = INFO
    /\ getMessage r = Some (Raises (Exn TypeError msg)).
Proof.
  intros HF Ho Hr. rewrite load_server_config_eq, HF, Ho, Hr.
  exists (info_record (parsed f)). eexists.
  split; [reflexivity | split; [reflexivity|]].
  unfold info_record, getMessage. cbn [log_args log_format].
  generalize (parsed f !!! "backend_ip"), (parsed f !!! "port"),
    (parsed f !!! "X-Auth-Token").
  intros ip port tok. lazy. reflexivity.
Qed.

Lemma loaded_message_does_not_format_witness :
  fs_with only_backend_ip !! config_path = Some only_backend_ip
  /\ exists r msg,
       log (snd (load_server_config (World (fs_with only_backend_ip) [])))
       = [] ++ [r]
       /\ log_level r = INFO
       /\ getMessage r = Some (Raises (Exn TypeError msg)).
Proof.
  assert (H : fs_with only_backend_ip !! config_path = Some only_backend_ip)
    by apply lookup_insert_eq.
  split; [exact H|].
  exact (loaded_message_does_not_format _ [] only_backend_ip H eq_refl eq_refl).
Defined.

(** The error record always renders, with the text of the exception in
    place of [%s]. *)
Theorem error_message_formats (e : exn) :
  getMessage (error_record e)
  = Some (Returns ("Error loading config file: " +:+ exn_msg e
                     +:+ ", using default configuration")).
Proof.
  unfold error_record, getMessage. cbn [log_args log_format].
  generalize (exn_msg e). intros m. lazy. reflexivity.
Qed.

End LoaderProperties.

(** ** Further properties of the handler *)

Module HandlerProperties.
Import Handler HandlerFacts More.

Lemma all_present_not_dict (data : pyvalue) :
  (forall d, data <> PyDict d) -> all_present data = false.
Proof. intros H. destruct data; try reflexivity. now destruct (H d). Qed.

(** A body that is not a JSON object (null, a number, a string, a list)
    makes the first [data.get] raise AttributeError; the provider is not
    called. *)
Theorem non_object_body_raises (client : provider) (data : pyvalue)
    (t : calls) :
  (forall d, data <> PyDict d) ->
  handlePacket client data t =
  (Raises (Exn AttributeError
             ("'" +:+ type_name data +:+ "' object has no attribute 'get'")),
   t).
Proof. apply handlePacket_not_dict. Qed.

Lemma non_object_body_raises_witness :
  (forall d, PyNone <> PyDict d)
  /\ handlePacket steady_client PyNone [] =
     (Raises (Exn AttributeError "'NoneType' object has no attribute 'get'"),
      []).
Proof.
  assert (H : forall d, PyNone <> PyDict d) by discriminate.
  split; [exact H|].
  exact (non_object_body_raises steady_client PyNone [] H).
Defined.

(** The provider is called exactly once when all five fields are present
    and truthy, with the model name and the prompt, and not at all
    otherwise, whatever the type of the body and whatever the provider
    answers; earlier calls are left as they were. *)
Theorem provider_called_iff_all_present (client : provider) (data : pyvalue)
    (t : calls) :
  snd (handlePacket client data t) =
  if all_present data
  then t ++ [("gemini-2.0-flash", spec_prompt data)]
  else t.
Proof.
  destruct data;
    try (rewrite handlePacket_not_dict by discriminate; reflexivity).
  rewrite handlePacket_dict. now destruct (all_present (PyDict d)).
Qed.

(** Only the five fields are read: two objects that agree on them are
    handled alike, whatever else they hold and in whatever order. *)
Theorem other_members_are_ignored (client : provider)
    (d1 d2 : list (string * pyvalue)) (t : calls) :
  (forall k, k ∈ required_fields -> dict_get d1 k = dict_get d2 k) ->
  handlePacket client (PyDict d1) t = handlePacket client (PyDict d2) t.
Proof.
  intros H.
  assert (H1 : dict_get d1 "packet_size" = dict_get d2 "packet_size")
    by (apply H; unfold required_fields; set_solver).
  assert (H2 : dict_get d1 "packet_rate" = dict_get d2 "packet_rate")
    by (apply H; unfold required_fields; set_solver).
  assert (H3 : dict_get d1 "protocol_type" = dict_get d2 "protocol_type")
    by (apply H; unfold required_fields; set_solver).
  assert (H4 : dict_get d1 "connection_state" = dict_get d2 "connection_state")
    by (apply H; unfold required_fields; set_solver).
  assert (H5 : dict_get d1 "payload_pattern" = dict_get d2 "payload_pattern")
    by (apply H; unfold required_fields; set_solver).
  rewrite !handlePacket_dict, !all_present_dict, <- !aireq_refines_template.
  now rewrite H1, H2, H3, H4, H5.
Qed.

Lemma other_members_are_ignored_witness :
  (forall k, k ∈ required_fields ->
             dict_get scenario_1_with_extra k = dict_get scenario_1_members k)
  /\ handlePacket failing_client (PyDict scenario_1_with_extra) []
     = handlePacket failing_client (PyDict scenario_1_members) [].
Proof.
  assert (H : forall k, k ∈ required_fields ->
                        dict_get scenario_1_with_extra k
                        = dict_get scenario_1_members k).
  { intros k. unfold required_fields.
    rewrite !elem_of_cons, elem_of_nil.
    intros [->|[->|[->|[->|[->|[]]]]]]; reflexivity. }
  split; [exact H|].
  exact (other_members_are_ignored failing_client _ _ [] H).
Defined.

(** A field whose value Python takes for false (null, false, 0, 0.0, the
    empty string, an empty list or object) counts as missing: the request
    gets the error envelope and the provider is not called. *)
Theorem falsy_field_counts_as_missing (client : provider)
    (d : list (string * pyvalue)) (t : calls) (k : string) (v : pyvalue) :
  k ∈ required_fields ->
  v ∈ falsy_values ->
  dict_get d k = v ->
  handlePacket client (PyDict d) t = (Returns error_envelope, t).
Proof.
  intros Hk Hv Hd.
  assert (Hinc : incomplete (PyDict d)).
  { exists k. split; [exact Hk|]. cbn [field]. rewrite Hd.
    unfold falsy_values in Hv. rewrite !elem_of_cons, elem_of_nil in Hv.
    destruct Hv as [->|[->|[->|[->|[->|[->|[->|[->|[]]]]]]]]]; reflexivity. }
  apply incomplete_all_present in Hinc.
  now rewrite handlePacket_dict, Hinc.
Qed.

Lemma falsy_field_counts_as_missing_witness :
  "packet_rate" ∈ required_fields
  /\ PyInt 0 ∈ falsy_values
  /\ handlePacket steady_client (PyDict zero_rate_members) []
     = (Returns error_envelope, []).
Proof.
  assert (Hk : "packet_rate" ∈ required_fields)
    by (unfold required_fields; rewrite !elem_of_cons; tauto).
  assert (Hv : PyInt 0 ∈ falsy_values)
    by (unfold falsy_values; rewrite !elem_of_cons; tauto).
  split; [exact Hk | split; [exact Hv|]].
  exact (falsy_field_counts_as_missing steady_client zero_rate_members []
           "packet_rate" (PyInt 0) Hk Hv eq_refl).
Defined.

(** The prompt does not keep the fields apart: text that a client puts
    into protocol_type can pass for the connection_state field.  The two
    requests below differ in both fields and give the same prompt. *)
Theorem prompt_fields_can_be_confused (ps pr pp : pyvalue) (a b c : string) :
  aireq_of ps pr (PyStr (a +:+ ", connection_state = " +:+ b)) (PyStr c) pp
  = aireq_of ps pr (PyStr a) (PyStr (b +:+ ", connection_state = " +:+ c)) pp.
Proof.
  unfold aireq_of, fstring. cbn [map py_format].
  generalize (py_format ps), (py_format pr), (py_format pp). intros s1 s2 s5.
  cbn [String.concat]. rewrite !append_assoc. reflexivity.
Qed.

End HandlerProperties.

(** ** Further properties of the module top level *)

Module BootstrapProperties.
Import Bootstrap BootstrapFacts MoreBootstrap.

(** Statements that pass the check raise no NameError: a run of them
    fails only where the environment makes a statement fail. *)
Lemma scoped_run_fails_from_outside (ext : nat -> option exn)
    (prog : list (nat * stmt)) (bound : list string) (env : gset string)
    (n : nat) (e : exn) :
  scoped bound prog = true ->
  (forall x, x ∈ bound -> x ∈ env) ->
  run ext env prog = Failed n e ->
  ext n = Some e.
Proof.
  revert bound env.
  induction prog as [|[m s] prog IH]; intros bound env Hsc Hsub;
    [discriminate|].
  cbn [scoped] in Hsc. apply andb_prop in Hsc as [Hloads Hrest].
  cbn [run].
  rewrite (first_unbound_none _ _ (forallb_bound _ _ _ Hloads Hsub)).
  destruct (ext m) as [e'|] eqn:Hm.
  - now intros [= <- <-].
  - apply (IH (bound ++ binds_of s)); [exact Hrest|].
    intros x Hx. apply elem_of_app in Hx as [Hx|Hx].
    + apply elem_of_union_l, Hsub, Hx.
    + apply elem_of_union_r, elem_of_list_to_set, Hx.
Qed.

Lemma scoped_without_50_and_53 : scoped preset_list without_50_and_53 = true.
Proof. vm_compute. reflexivity. Qed.

Lemma stops_at_line_55 :
  run no_genai_client preset_names without_50_and_53 =
  Failed 55 (Exn AttributeError
               "module 'google.generativeai' has no attribute 'Client'").
Proof.
  change (run no_genai_client preset_names
            (filter (fun p => fst p ≠ 50%nat /\ fst p ≠ 53%nat)
                    (before 55 server_py)
               ++ (55%nat, line_55) :: from 56 server_py)
          = Failed 55 (Exn AttributeError
                         "module 'google.generativeai' has no attribute 'Client'")).
  assert (Hsc : scoped preset_list
                  (filter (fun p => fst p ≠ 50%nat /\ fst p ≠ 53%nat)
                          (before 55 server_py)) = true)
    by (vm_compute; reflexivity).
  assert (Hl : forallb
                 (fun x => bool_decide
                    (x ∈ preset_list
                       ++ binds_list
                            (filter (fun p => fst p ≠ 50%nat /\ fst p ≠ 53%nat)
                                    (before 55 server_py))))
                 (loads_of line_55) = true)
    by (vm_compute; reflexivity).
  rewrite (run_scoped no_genai_client _ _ preset_list preset_names Hsc
             preset_sub).
  - apply run_external_failure; [|reflexivity].
    apply (forallb_bound _ _ _ Hl). intros x Hx.
    apply elem_of_app in Hx as [Hx|Hx].
    + apply elem_of_union_l, preset_sub, Hx.
    + apply elem_of_union_r, elem_of_list_to_set, Hx.
  - intros n s Hn. apply list_elem_of_filter in Hn as [_ Hn].
    apply before_lt in Hn. unfold no_genai_client.
    destruct (Nat.eqb_spec n 55); [lia | reflexivity].
Qed.

(** SocketIO at line 50 and datetime and timezone at line 53 are the only
    names the top level looks up that nothing binds: with these two
    statements taken out, no lookup raises NameError, so a run that fails
    at a line fails with what the environment makes that line raise. *)
Theorem no_name_error_without_lines_50_and_53 (ext : nat -> option exn)
    (n : nat) (e : exn) :
  run ext preset_names
      (filter (fun p => fst p ≠ 50%nat /\ fst p ≠ 53%nat) server_py)
  = Failed n e ->
  ext n = Some e.
Proof.
  exact (scoped_run_fails_from_outside ext without_50_and_53 preset_list
           preset_names n e scoped_without_50_and_53 preset_sub).
Qed.

Lemma no_name_error_without_lines_50_and_53_witness :
  run no_genai_client preset_names
      (filter (fun p => fst p ≠ 50%nat /\ fst p ≠ 53%nat) server_py)
  = Failed 55 (Exn AttributeError
                 "module 'google.generativeai' has no attribute 'Client'")
  /\ no_genai_client 55
     = Some (Exn AttributeError
               "module 'google.generativeai' has no attribute 'Client'").
Proof.
  split; [exact stops_at_line_55|].
  exact (no_name_error_without_lines_50_and_53 no_genai_client 55 _
           stops_at_line_55).
Defined.

End BootstrapProperties.
